(** * ai-scheduler: the availability check and the two scheduling handlers

    A shallow embedding of [src/app.py] (the standalone [/schedule] route)
    and [src/main.py] (the MCP route [/tools/schedule_meeting]), and the
    properties of their request handling.

    The libraries the two files call are collaborators, not part of the
    program: [dateutil.parser.parse], [pytz.timezone], [requests.post],
    Flask's [request.get_json], the builtin [int] on a string and the
    [repr] of a container.  They are the Variables of the sections below;
    what the handlers do with their results is modelled in full. *)

From Stdlib Require Import ZArith String Ascii List Bool Lia DecimalString QArith.
From stdpp Require Import base option gmap strings.

Local Open Scope string_scope.
Local Open Scope Z_scope.

(** ** Python values that travel through the handlers *)

(** What [json.loads] produces and [jsonify] consumes.  A JSON object is a
    Python [dict] with string keys; a finite float is kept as a rational. *)
#[warnings="-register-all"]
Inductive json : Type :=
| JNull
| JBool (b : bool)
| JInt (z : Z)
| JFloat (q : Q)
| JStr (s : string)
| JList (l : list json)
| JObj (m : gmap string json).

(** Python's truth value of an object, the test behind [not x]. *)
Definition truthy (v : json) : bool :=
  match v with
  | JNull => false
  | JBool b => b
  | JInt z => negb (z =? 0)
  | JFloat q => negb (Qeq_bool q 0)
  | JStr s => negb (String.eqb s "")
  | JList l => match l with [] => false | _ => true end
  | JObj m => negb (bool_decide (m = ∅))
  end.

(** The name [type(v).__name__] prints in an [AttributeError]. *)
Definition type_name (v : json) : string :=
  match v with
  | JNull => "NoneType"
  | JBool _ => "bool"
  | JInt _ => "int"
  | JFloat _ => "float"
  | JStr _ => "str"
  | JList _ => "list"
  | JObj _ => "dict"
  end.

(** ** Exceptions *)

Inductive exc_class : Type :=
| UnknownTimeZoneError
| AttributeError
| TypeError
| ValueError
| OverflowError
| OtherException.

(** An exception object: its class and what [str(e)] gives. *)
Record exception : Type := Exc { exc_type : exc_class; exc_str : string }.

Inductive result (A : Type) : Type :=
| Ok (a : A)
| Raise (e : exception).
Arguments Ok {A} a.
Arguments Raise {A} e.

#[global] Instance result_ret : MRet result := fun A a => Ok a.
#[global] Instance result_bind : MBind result := fun A B f m =>
  match m with
  | Ok a => f a
  | Raise e => Raise e
  end.

Definition is_unknown_tz (e : exception) : bool :=
  match exc_type e with UnknownTimeZoneError => true | _ => false end.

(** ** Decimal printing, as the [%d] family and [str(int)] do it *)

Definition str_nat (z : Z) : string :=
  NilEmpty.string_of_uint (N.to_uint (Z.to_N z)).

Definition str_int (z : Z) : string :=
  if z <? 0 then "-" +:+ str_nat (- z) else str_nat z.

(** [pad k z] is ["%0kd" % z] for a non-negative [z]. *)
Definition pad (k : nat) (z : Z) : string :=
  let s := str_nat z in
  String.concat "" (repeat "0" (k - String.length s)) +:+ s.

(** ** [dict.get] *)

Definition no_attribute_get (v : json) : exception :=
  Exc AttributeError ("'" +:+ type_name v +:+ "' object has no attribute 'get'").

(** [d.get(k, dflt)]: only a dict has the method. *)
Definition py_get_default (d : json) (k : string) (dflt : json) : result json :=
  match d with
  | JObj m => Ok (default dflt (m !! k))
  | _ => Raise (no_attribute_get d)
  end.

(** [d.get(k)], whose default is [None]. *)
Definition py_get (d : json) (k : string) : result json :=
  py_get_default d k JNull.

(** [v == "success"] and the like: a JSON value equals a [str] literal only
    when it is that string. *)
Definition py_eq_str (v : json) (s : string) : bool :=
  match v with
  | JStr s' => String.eqb s' s
  | _ => false
  end.

(** ** [datetime]

    A [datetime] is kept as the count of microseconds its wall clock shows
    since 0001-01-01T00:00:00, together with the UTC offset (seconds east)
    its [tzinfo] gives it, or [None] when it is naive.  The fields Python
    stores are recovered by division. *)
Record datetime : Type := Datetime { wall : Z; tzinfo : option Z }.

Definition us_per_second : Z := 1000000.
Definition us_per_minute : Z := 60 * us_per_second.
Definition us_per_hour : Z := 60 * us_per_minute.
Definition us_per_day : Z := 24 * us_per_hour.

(** [datetime.max.toordinal()], the last day of year 9999. *)
Definition _MAXORDINAL : Z := 3652059.

Definition toordinal (dt : datetime) : Z := wall dt / us_per_day + 1.
Definition hour (dt : datetime) : Z := (wall dt / us_per_hour) mod 24.
Definition minute (dt : datetime) : Z := (wall dt / us_per_minute) mod 60.
Definition second (dt : datetime) : Z := (wall dt / us_per_second) mod 60.
Definition microsecond (dt : datetime) : Z := wall dt mod us_per_second.

(** [date.weekday()]: [(self.toordinal() + 6) % 7], Monday is 0. *)
Definition weekday (dt : datetime) : Z := (toordinal dt + 6) mod 7.

(** [w + timedelta(seconds=s)] on the wall clock; Python raises
    [OverflowError] when the result leaves years 1..9999. *)
Definition shift (w s : Z) : result Z :=
  let w' := w + s * us_per_second in
  if (0 <=? w') && (w' <? _MAXORDINAL * us_per_day) then Ok w'
  else Raise (Exc OverflowError "date value out of range").

(** *** The calendar, for printing *)

Definition _DI400Y : Z := 146097.
Definition _DI100Y : Z := 36524.
Definition _DI4Y : Z := 1461.

Definition _is_leap (y : Z) : bool :=
  (y mod 4 =? 0) && (negb (y mod 100 =? 0) || (y mod 400 =? 0)).

Definition _days_before_year (y : Z) : Z :=
  let y := y - 1 in y * 365 + y / 4 - y / 100 + y / 400.

Definition _DAYS_IN_MONTH (m : Z) : Z :=
  match m with
  | 1 => 31 | 2 => 28 | 3 => 31 | 4 => 30 | 5 => 31 | 6 => 30
  | 7 => 31 | 8 => 31 | 9 => 30 | 10 => 31 | 11 => 30 | 12 => 31
  | _ => 0
  end.

Definition _DAYS_BEFORE_MONTH (m : Z) : Z :=
  match m with
  | 1 => 0 | 2 => 31 | 3 => 59 | 4 => 90 | 5 => 120 | 6 => 151
  | 7 => 181 | 8 => 212 | 9 => 243 | 10 => 273 | 11 => 304 | 12 => 334
  | _ => 0
  end.

Definition _days_before_month (y m : Z) : Z :=
  _DAYS_BEFORE_MONTH m + (if (2 <? m) && _is_leap y then 1 else 0).

Definition _ymd2ord (y m d : Z) : Z :=
  _days_before_year y + _days_before_month y m + d.

(** [datetime._ord2ymd]: ordinal to (year, month, day). *)
Definition _ord2ymd (n : Z) : Z * Z * Z :=
  let n := n - 1 in
  let n400 := n / _DI400Y in
  let n := n mod _DI400Y in
  let year := n400 * 400 + 1 in
  let n100 := n / _DI100Y in
  let n := n mod _DI100Y in
  let n4 := n / _DI4Y in
  let n := n mod _DI4Y in
  let n1 := n / 365 in
  let n := n mod 365 in
  let year := year + n100 * 100 + n4 * 4 + n1 in
  if (n1 =? 4) || (n100 =? 4) then (year - 1, 12, 31)
  else
    let leapyear := (n1 =? 3) && (negb (n4 =? 24) || (n100 =? 3)) in
    let month := Z.shiftr (n + 50) 5 in
    let preceding :=
      _DAYS_BEFORE_MONTH month + (if (2 <? month) && leapyear then 1 else 0) in
    if n <? preceding then
      let month := month - 1 in
      let preceding :=
        preceding
        - (_DAYS_IN_MONTH month + (if (month =? 2) && leapyear then 1 else 0)) in
      (year, month, n - preceding + 1)
    else (year, month, n - preceding + 1).

(** [_format_offset]: [+HH:MM], with [:SS] when the offset has seconds. *)
Definition _format_offset (off : option Z) : string :=
  match off with
  | None => ""
  | Some o =>
      let sign := if o <? 0 then "-" else "+" in
      let a := Z.abs o in
      let hh := a / 3600 in
      let mm := (a mod 3600) / 60 in
      let ss := a mod 60 in
      sign +:+ pad 2 hh +:+ ":" +:+ pad 2 mm
      +:+ (if ss =? 0 then "" else ":" +:+ pad 2 ss)
  end.

Definition _format_time (dt : datetime) : string :=
  pad 2 (hour dt) +:+ ":" +:+ pad 2 (minute dt) +:+ ":" +:+ pad 2 (second dt)
  +:+ (if microsecond dt =? 0 then "" else "." +:+ pad 6 (microsecond dt)).

(** [dt.isoformat(sep)]. *)
Definition isoformat_sep (sep : string) (dt : datetime) : string :=
  let '(y, m, d) := _ord2ymd (toordinal dt) in
  (pad 4 y +:+ "-" +:+ pad 2 m +:+ "-" +:+ pad 2 d +:+ sep +:+ _format_time dt)
  +:+ _format_offset (tzinfo dt).

Definition isoformat (dt : datetime) : string := isoformat_sep "T" dt.

(** [str(dt)], which is [dt.isoformat(sep=' ')]. *)
Definition str_datetime (dt : datetime) : string := isoformat_sep " " dt.

(** [dt.strftime('%A')] in the C locale. *)
Definition strftime_A (dt : datetime) : string :=
  match weekday dt with
  | 0 => "Monday" | 1 => "Tuesday" | 2 => "Wednesday" | 3 => "Thursday"
  | 4 => "Friday" | 5 => "Saturday" | _ => "Sunday"
  end.

(** [datetime(y, m, d, hh, mm, ss)] with its [tzinfo]. *)
Definition mk_datetime (y m d hh mm ss : Z) (tz : option Z) : datetime :=
  Datetime ((_ymd2ord y m d - 1) * us_per_day + hh * us_per_hour
            + mm * us_per_minute + ss * us_per_second) tz.

(** *** Time zones *)

(** What [pytz.timezone(name)] returns: the zone's rules, a black box of the
    zone database.  [utcoffset_at u] is the offset in force at the UTC wall
    clock [u] (what [fromutc] looks up); [localize_offset w] is the offset
    [localize] picks for the local wall clock [w] (with [is_dst=False]). *)
Record timezone : Type := Timezone {
  zone : string;
  utcoffset_at : Z -> Z;
  localize_offset : Z -> result Z
}.

(** [pytz.UTC]. *)
Definition pytz_UTC : timezone :=
  {| zone := "UTC"; utcoffset_at := fun _ => 0; localize_offset := fun _ => Ok 0 |}.

(** [tz.fromutc(utc)]: add the offset in force and attach it. *)
Definition fromutc (tz : timezone) (utc : Z) : result datetime :=
  let o := utcoffset_at tz utc in
  w ← shift utc o;
  Ok (Datetime w (Some o)).

(** [tz.localize(dt)]: attach the zone to a naive [dt], wall clock unchanged. *)
Definition localize (tz : timezone) (dt : datetime) : result datetime :=
  match tzinfo dt with
  | Some _ => Raise (Exc ValueError "Not naive datetime (tzinfo is already set)")
  | None =>
      o ← localize_offset tz (wall dt);
      Ok (Datetime (wall dt) (Some o))
  end.

(** The instant of an aware datetime: its wall clock read in UTC. *)
Definition utc_wall (dt : datetime) (o : Z) : Z := wall dt - o * us_per_second.

(** ** The world outside the process *)

(** What [requests.post] returns: the status line, the raw body, and what
    [res.json()] makes of the body (it raises when the body is not JSON). *)
Record response : Type := Response {
  status_code : Z;
  text : string;
  res_json : result json
}.

(** One outbound [requests.post(url, json=..., headers=...)]. *)
Record post_call : Type := PostCall {
  post_url : string;
  post_json : json;
  post_headers : gmap string string
}.

(** The collaborators and the process configuration. *)
Record world : Type := World {
  (** [dateutil.parser.parse(x, fuzzy=True)] *)
  date_parse : json -> result datetime;
  (** [pytz.timezone(x)] *)
  pytz_timezone : json -> result timezone;
  (** the booking API behind [requests.post] *)
  requests_post : string -> json -> gmap string string -> result response;
  (** the builtin [int] on a [str] *)
  int_of_str : string -> result Z;
  (** [str] of a float, a list or a dict *)
  py_repr : json -> string;
  (** the offset of the machine's local zone, used by [astimezone] on a
      naive datetime *)
  _local_timezone : Z -> result Z;
  (** [os.getenv("CAL_API_KEY")], [os.getenv("CAL_EVENT_TYPE_ID")] *)
  CAL_API_KEY : option string;
  CAL_EVENT_TYPE_ID : option string
}.

(** What a route returns: the JSON body and the HTTP status. *)
Definition http_response : Type := json * Z.

(** Flask's [request]: [get_json()] gives the parsed body or raises. *)
Record flask_request : Type := Request { get_json : result json }.

(** ** Effects: exceptions and the log of outbound calls *)

Definition io (A : Type) : Type := list post_call -> result A * list post_call.

#[global] Instance io_ret : MRet io := fun A a log => (Ok a, log).
#[global] Instance io_bind : MBind io := fun A B f m log =>
  match m log with
  | (Ok a, log') => f a log'
  | (Raise e, log') => (Raise e, log')
  end.

(** A step without outbound effect. *)
Definition lift {A} (r : result A) : io A := fun log => (r, log).

(** [print(x)]: only evaluating [x] can matter to the caller. *)
Definition print {A} (r : result A) : io unit := lift (_ ← r; Ok tt).

(** Running the binds of a handler body in a goal. *)
Ltac run_io :=
  cbv beta iota delta
    [mbind io_bind result_bind mret io_ret result_ret lift print py_get py_get_default].

Section Scheduler.

Variable W : world.

(** [str(v)] as an f-string prints it. *)
Definition py_str (v : json) : string :=
  match v with
  | JNull => "None"
  | JBool true => "True"
  | JBool false => "False"
  | JInt z => str_int z
  | JStr s => s
  | _ => py_repr W v
  end.

(** [int(x)] for [x] read from the environment. *)
Definition py_int (x : option string) : result Z :=
  match x with
  | Some s => int_of_str W s
  | None =>
      Raise (Exc TypeError
        "int() argument must be a string, a bytes-like object or a real number, not 'NoneType'")
  end.

(** [dt.astimezone(tz)]: [utc = self - self.utcoffset()], then
    [tz.fromutc(utc)].  (When [tz] is the very object [dt] carries Python
    hands [dt] back at once; the zone objects of this model have no
    identity, and the conversion below gives that same datetime whenever the
    zone reads its own offsets back.) *)
Definition astimezone (dt : datetime) (tz : timezone) : result datetime :=
  myoffset ← match tzinfo dt with
             | Some o => Ok o
             | None => _local_timezone W (wall dt)
             end;
  utc ← shift (wall dt) (- myoffset);
  fromutc tz utc.

(** [is_available_slot], the same text in both files
    (src/app.py 20-36, src/main.py 26-38). *)
Definition is_available_slot (dt : datetime) (timezone : json)
  : result (bool * string) :=
  tz ← pytz_timezone W timezone;
  local_dt ← astimezone dt tz;
  let weekday := weekday local_dt in
  let hour := hour local_dt in
  if 5 <=? weekday then
    Ok (false, "Not available on " +:+ strftime_A local_dt)
  else if (hour <? 9) || (17 <=? hour) then
    Ok (false,
        "Outside business hours (9 AM - 5 PM). Requested: " +:+ str_int hour +:+ ":00")
  else Ok (true, "Available").

(** [requests.post("https://api.cal.com/v2/bookings", json=payload,
    headers=headers)]: the call is made, then its outcome is known. *)
Definition post (url : string) (payload : json) (headers : gmap string string)
  : io response :=
  fun log =>
    (requests_post W url payload headers,
     (log ++ [PostCall url payload headers])%list).

Definition booking_payload (iso_date : string) (event_type_id : Z)
  (name email user_timezone : json) : json :=
  JObj {[ "start" := JStr iso_date;
          "eventTypeId" := JInt event_type_id;
          "attendee" := JObj {[ "name" := name;
                                "email" := email;
                                "timeZone" := user_timezone ]} ]}.

Definition booking_headers : gmap string string :=
  {[ "Authorization" := "Bearer " +:+ default "None" (CAL_API_KEY W);
     "Content-Type" := "application/json";
     "cal-api-version" := "2024-08-13" ]}.

(** *** The answers, as the [jsonify(...)] calls build them *)

Definition missing_fields : http_response :=
  (JObj {[ "error" := JStr "Missing required fields: name, email, time" ]}, 400).

(** src/main.py 143 *)
Definition invalid_timezone (user_timezone : json) : http_response :=
  (JObj {[ "error" := JStr ("Invalid timezone: " +:+ py_str user_timezone) ]}, 400).

(** src/main.py 157 *)
Definition unparsable_time_tool (time_str : json) (e : exception) : http_response :=
  (JObj {[ "error" := JStr ("Could not parse date: " +:+ py_str time_str);
           "details" := JStr (exc_str e) ]}, 400).

(** src/app.py 57 *)
Definition unparsable_time (time_str : json) : http_response :=
  (JObj {[ "error" := JStr ("Could not parse date: " +:+ py_str time_str) ]}, 400).

(** src/main.py 162-168 and src/app.py 67-73; the two differ in the
    [availability] text. *)
Definition slot_unavailable (avail_msg availability : string) : http_response :=
  (JObj {[ "error" := JStr "Requested time is not available";
           "reason" := JStr avail_msg;
           "availability" := JStr availability ]}, 400).

(** src/main.py 202-204 and src/app.py 118-120; [details] is the parsed body
    in the first and [res.text] in the second. *)
Definition upstream_failure (details : json) : http_response :=
  (JObj {[ "error" := JStr "Failed to create Cal.com booking";
           "details" := details ]}, 500).

(** src/main.py 206-212 and src/app.py 122-128. *)
Definition scheduled (when : string) (booking : json) : http_response :=
  (JObj {[ "success" := JBool true;
           "message" := JStr ("Meeting scheduled for " +:+ when);
           "booking" := booking ]}, 200).

(** The [except Exception as e] that closes both handlers. *)
Definition internal_error (e : exception) : http_response :=
  (JObj {[ "error" := JStr "Internal Server Error";
           "details" := JStr (exc_str e) ]}, 500).

(** [try: ... except Exception as e: return internal error], run from an
    empty log: the answer and the outbound calls made on the way. *)
Definition catch_all (body : io http_response) : http_response * list post_call :=
  match body [] with
  | (Ok r, log) => (r, log)
  | (Raise e, log) => (internal_error e, log)
  end.

(** *** src/main.py *)

(** Lines 147-154, the body of the inner [try]: parse, then attach the
    caller's zone to a naive result or convert an aware one into it. *)
Definition normalize_time (tz : timezone) (time_str : json) : result datetime :=
  parsed_date ← date_parse W time_str;
  match tzinfo parsed_date with
  | None => localize tz parsed_date
  | Some _ => astimezone parsed_date tz
  end.

(** Lines 193-212: what the handler makes of the API's answer.  The three
    [print]s evaluate [booking_data.get("status")] before the test does;
    [or] evaluates its right operand only when the left one is false. *)
Definition booking_outcome_tool (iso_date : string) (res : response)
  : io http_response :=
  booking_data ← lift (res_json res);
  _ ← print (py_get booking_data "status");
  _ ← print (py_get booking_data "status");
  _ ← print (py_get booking_data "status");
  failed ← lift (if negb (status_code res =? 201) then Ok true
                 else status ← py_get booking_data "status";
                      Ok (negb (py_eq_str status "success")));
  if (failed : bool) then mret (upstream_failure booking_data)
  else
    booking ← lift (py_get booking_data "data");
    mret (scheduled iso_date booking).

(** Lines 129-191, the body of the outer [try] up to the outbound call. *)
Definition schedule_meeting_tool_try (request : flask_request) : io http_response :=
  data ← lift (get_json request);
  name ← lift (py_get data "name");
  email ← lift (py_get data "email");
  time_str ← lift (py_get data "time");
  duration ← lift (py_get_default data "duration" (JInt 30));
  user_timezone ← lift (py_get_default data "timezone" (JStr "Europe/Amsterdam"));
  if negb (truthy name) || negb (truthy email) || negb (truthy time_str) then
    mret missing_fields
  else
    match pytz_timezone W user_timezone with
    | Raise e =>
        if is_unknown_tz e then mret (invalid_timezone user_timezone)
        else lift (Raise e)
    | Ok tz =>
        match normalize_time tz time_str with
        | Raise e => mret (unparsable_time_tool time_str e)
        | Ok parsed_date =>
            '(is_avail, avail_msg) ← lift (is_available_slot parsed_date user_timezone);
            if negb is_avail then
              mret (slot_unavailable avail_msg
                      "Monday-Friday, 9:00 AM - 5:00 PM in your timezone")
            else
              utc_date ← lift (astimezone parsed_date pytz_UTC);
              let iso_date := isoformat utc_date in
              event_type_id ← lift (py_int (CAL_EVENT_TYPE_ID W));
              let payload :=
                booking_payload iso_date event_type_id name email user_timezone in
              res ← post "https://api.cal.com/v2/bookings" payload booking_headers;
              booking_outcome_tool iso_date res
        end
    end.

(** [schedule_meeting_tool] (lines 122-216): the outer [except Exception]
    answers whatever the body raised; the second component is the list of
    outbound calls the request caused. *)
Definition schedule_meeting_tool (request : flask_request)
  : http_response * list post_call :=
  catch_all (schedule_meeting_tool_try request).

(** *** src/app.py *)

(** Lines 59-61: a naive parse result is taken to be UTC. *)
Definition ensure_aware (parsed_date : datetime) : result datetime :=
  match tzinfo parsed_date with
  | None => localize pytz_UTC parsed_date
  | Some _ => Ok parsed_date
  end.

(** Lines 105-115, the report printed for a booking the API accepted; every
    [.get] in it is evaluated. *)
Definition print_booking (booking_data : json) : io unit :=
  data ← lift (py_get_default booking_data "data" (JObj ∅));
  _ ← print (py_get data "title");
  _ ← print (fields ← py_get_default data "bookingFieldsResponses" (JObj ∅);
             py_get fields "name");
  _ ← print (fields ← py_get_default data "bookingFieldsResponses" (JObj ∅);
             py_get fields "email");
  _ ← print (py_get data "start");
  _ ← print (py_get data "end");
  _ ← print (py_get data "duration");
  _ ← print (py_get data "meetingUrl");
  print (py_get data "id").

(** Lines 101-128: what the handler makes of the API's answer. *)
Definition booking_outcome (parsed_date : datetime) (res : response)
  : io http_response :=
  booking_data ← lift (res_json res);
  status ← lift (py_get booking_data "status");
  if py_eq_str status "success" then
    _ ← print_booking booking_data;
    mret (scheduled (str_datetime parsed_date) booking_data)
  else if negb (status_code res =? 200) then
    mret (upstream_failure (JStr (text res)))
  else mret (scheduled (str_datetime parsed_date) booking_data).

(** Lines 42-99, the body of the outer [try] up to the outbound call. *)
Definition schedule_meeting_try (request : flask_request) : io http_response :=
  data ← lift (get_json request);
  name ← lift (py_get data "name");
  email ← lift (py_get data "email");
  time_str ← lift (py_get data "time");
  duration ← lift (py_get_default data "duration" (JInt 30));
  user_timezone ← lift (py_get_default data "timezone" (JStr "UTC"));
  if negb (truthy name) || negb (truthy email) || negb (truthy time_str) then
    mret missing_fields
  else
    match date_parse W time_str with
    | Raise e => mret (unparsable_time time_str)
    | Ok parsed_date =>
        parsed_date ← lift (ensure_aware parsed_date);
        '(is_avail, avail_msg) ← lift (is_available_slot parsed_date user_timezone);
        if negb is_avail then
          mret (slot_unavailable avail_msg "Monday-Friday, 9:00 AM - 5:00 PM UTC")
        else
          let iso_date := isoformat parsed_date in
          event_type_id ← lift (py_int (CAL_EVENT_TYPE_ID W));
          let payload :=
            booking_payload iso_date event_type_id name email user_timezone in
          res ← post "https://api.cal.com/v2/bookings" payload booking_headers;
          booking_outcome parsed_date res
    end.

(** [schedule_meeting] (lines 39-132). *)
Definition schedule_meeting (request : flask_request)
  : http_response * list post_call :=
  catch_all (schedule_meeting_try request).

End Scheduler.

(** ** The discovery documents and the health check of src/main.py *)

Definition string_property (description : string) : json :=
  JObj {[ "type" := JStr "string"; "description" := JStr description ]}.

(** The schema in [mcp_root] (lines 51-78). *)
Definition mcp_properties : gmap string json :=
  {[ "name" := string_property "Full name of attendee";
     "email" := string_property "Email of attendee";
     "time" := string_property "Natural language time (e.g., 'next Monday at 3pm')";
     "duration" := JObj {[
       "type" := JStr "integer";
       "description" := JStr "Meeting duration in minutes";
       "default" := JInt 30 ]};
     "timezone" := JObj {[
       "type" := JStr "string";
       "description" :=
         JStr "Timezone (e.g., 'Europe/Amsterdam', 'Europe/Kyiv', 'America/New_York'). MUST match your Cal.com account timezone setting.";
       "default" := JStr "Europe/Amsterdam" ]} ]}.

Definition mcp_parameters : json :=
  JObj {[ "type" := JStr "object";
          "properties" := JObj mcp_properties;
          "required" := JList [JStr "name"; JStr "email"; JStr "time"] ]}.

(** [mcp_root] (lines 42-82), the document behind [GET /]. *)
Definition mcp_root : http_response :=
  (JObj {[
     "mcp" := JStr "1.0";
     "tools" := JList [
       JObj {[
         "name" := JStr "schedule_meeting";
         "description" :=
           JStr "Schedules a meeting in Cal.com using a name, email, and natural language date.";
         "parameters" := mcp_parameters ]} ] ]},
   200).

(** The schema in [list_tools] (lines 93-114). *)
Definition tools_properties : gmap string json :=
  {[ "name" := string_property "Full name of the attendee";
     "email" := string_property "Email address of the attendee";
     "time" :=
       string_property "Natural language date/time (e.g. 'next Monday at 3pm')";
     "timezone" :=
       string_property "Timezone (e.g., 'Europe/Kyiv', 'America/New_York')" ]}.

Definition tools_input_schema : json :=
  JObj {[ "type" := JStr "object";
          "properties" := JObj tools_properties;
          "required" := JList [JStr "name"; JStr "email"; JStr "time"] ]}.

(** [list_tools] (lines 85-118), the document behind [GET /tools]. *)
Definition list_tools : http_response :=
  (JObj {[
     "tools" := JList [
       JObj {[
         "name" := JStr "schedule_meeting";
         "description" :=
           JStr "Schedules a call on Cal.com given a name, email, and time string.";
         "input_schema" := tools_input_schema ]} ] ]},
   200).

(** [health] (lines 220-222). *)
Definition health : http_response := (JObj {[ "status" := JStr "ok" ]}, 200).

(** Reading a discovery document the way a calling agent does: the schema
    of its first tool, under the key the document uses for it. *)
Definition tool_schema (doc : http_response) (schema_key : string) : result json :=
  tools ← py_get doc.1 "tools";
  match tools with
  | JList (tool :: _) => py_get tool schema_key
  | _ => Raise (Exc OtherException "no tool")
  end.

(** The names the schema lists under [required]. *)
Definition required_fields (schema : json) : list string :=
  match py_get schema "required" with
  | Ok (JList l) =>
      omap (fun v => match v with JStr s => Some s | _ => None end) l
  | _ => []
  end.

(** The [default] the schema gives the property [k], if any. *)
Definition advertised_default (schema : json) (k : string) : option json :=
  match py_get schema "properties" with
  | Ok (JObj props) =>
      match props !! k with
      | Some (JObj p) => p !! "default"
      | _ => None
      end
  | _ => None
  end.

(** ** A small world to run the handlers in

    A fragment of the zone database for 2025, a parser for ISO-like time
    strings, and a booking API that answers with a fixed response. *)

(** Zones that switch between a standard and a daylight offset at two UTC
    instants of 2025. *)
Definition dst_zone (name : string) (std dst : Z) (start_utc end_utc : Z) : timezone :=
  {| zone := name;
     utcoffset_at := fun u =>
       if (start_utc <=? u) && (u <? end_utc) then dst else std;
     localize_offset := fun w =>
       if (start_utc + dst * us_per_second <=? w)
          && (w <? end_utc + std * us_per_second) then Ok dst else Ok std |}.

Definition America_New_York : timezone :=
  dst_zone "America/New_York" (-18000) (-14400)
    (wall (mk_datetime 2025 3 9 7 0 0 None)) (wall (mk_datetime 2025 11 2 6 0 0 None)).

Definition Europe_Amsterdam : timezone :=
  dst_zone "Europe/Amsterdam" 3600 7200
    (wall (mk_datetime 2025 3 30 1 0 0 None)) (wall (mk_datetime 2025 10 26 1 0 0 None)).

Definition sample_timezone (x : json) : result timezone :=
  match x with
  | JNull => Raise (Exc UnknownTimeZoneError "None")
  | JStr s =>
      if String.eqb s "UTC" then Ok pytz_UTC
      else if String.eqb s "America/New_York" then Ok America_New_York
      else if String.eqb s "Europe/Amsterdam" then Ok Europe_Amsterdam
      else Raise (Exc UnknownTimeZoneError ("'" +:+ s +:+ "'"))
  | _ => Raise (Exc AttributeError
                  ("'" +:+ type_name x +:+ "' object has no attribute 'upper'"))
  end.

(** Reading [k] decimal digits. *)
Fixpoint digits (k : nat) (acc : Z) (s : string) : option (Z * string) :=
  match k with
  | O => Some (acc, s)
  | S k' =>
      match s with
      | String c rest =>
          let n := Z.of_nat (nat_of_ascii c) - 48 in
          if (0 <=? n) && (n <=? 9) then digits k' (acc * 10 + n) rest else None
      | EmptyString => None
      end
  end.

Definition expect (c : ascii) (s : string) : option string :=
  match s with
  | String c' rest => if Ascii.eqb c c' then Some rest else None
  | EmptyString => None
  end.

(** The zone suffix: nothing, [Z], or [+HH:MM] / [-HH:MM]. *)
Definition parse_offset (s : string) : option (option Z) :=
  match s with
  | EmptyString => Some None
  | String c rest =>
      if Ascii.eqb c "Z" then
        match rest with EmptyString => Some (Some 0) | _ => None end
      else
        sign ← (if Ascii.eqb c "+" then Some 1
                else if Ascii.eqb c "-" then Some (-1) else None);
        '(hh, rest) ← digits 2 0 rest;
        rest ← expect ":" rest;
        '(mm, rest) ← digits 2 0 rest;
        match rest with
        | EmptyString => Some (Some (sign * (hh * 3600 + mm * 60)))
        | _ => None
        end
  end.

(** [YYYY-MM-DD HH:MM], with [T] for the blank, optional [:SS] and an
    optional zone suffix. *)
Definition parse_iso (s : string) : option datetime :=
  '(y, s) ← digits 4 0 s;
  s ← expect "-" s;
  '(m, s) ← digits 2 0 s;
  s ← expect "-" s;
  '(d, s) ← digits 2 0 s;
  s ← (match expect " " s with Some r => Some r | None => expect "T" s end);
  '(hh, s) ← digits 2 0 s;
  s ← expect ":" s;
  '(mm, s) ← digits 2 0 s;
  '(ss, s) ← (match expect ":" s with
              | Some r => digits 2 0 r
              | None => Some (0, s)
              end);
  tz ← parse_offset s;
  if (1 <=? y) && (y <=? 9999) && (1 <=? m) && (m <=? 12) && (1 <=? d)
     && (d <=? _DAYS_IN_MONTH m + (if (m =? 2) && _is_leap y then 1 else 0))
     && (hh <? 24) && (mm <? 60) && (ss <? 60)
  then Some (mk_datetime y m d hh mm ss tz)
  else None.

Definition sample_parse (x : json) : result datetime :=
  match x with
  | JStr s =>
      match parse_iso s with
      | Some dt => Ok dt
      | None =>
          if String.eqb s "" then Raise (Exc OtherException "String does not contain a date: ")
          else Raise (Exc OtherException ("Unknown string format: " +:+ s))
      end
  | _ => Raise (Exc TypeError "Parser must be a string or character stream")
  end.

(** Digits only, which is all the event type id needs. *)
Definition sample_int (s : string) : result Z :=
  match digits (String.length s) 0 s with
  | Some (n, _) =>
      if String.eqb s "" then Raise (Exc ValueError "invalid literal for int()")
      else Ok n
  | None => Raise (Exc ValueError "invalid literal for int()")
  end.

(** A process configured with an API key and event type 42, on a machine
    whose clock is UTC, talking to a booking API that always answers [r]. *)
Definition sample_world (r : result response) : world :=
  {| date_parse := sample_parse;
     pytz_timezone := sample_timezone;
     requests_post := fun _ _ _ => r;
     int_of_str := sample_int;
     py_repr := fun _ => "<object>";
     _local_timezone := fun _ => Ok 0;
     CAL_API_KEY := Some "cal_live_key";
     CAL_EVENT_TYPE_ID := Some "42" |}.

Definition created : response :=
  {| status_code := 201;
     text := "(the body the API sent)";
     res_json := Ok (JObj {[ "status" := JStr "success";
                             "data" := JObj {[ "id" := JInt 7 ]} ]}) |}.

(** HTTP 200 with a body that reports an error. *)
Definition error_200 : response :=
  {| status_code := 200;
     text := "(the body the API sent)";
     res_json := Ok (JObj {[ "status" := JStr "error" ]}) |}.

Definition request_of (fields : list (string * json)) : flask_request :=
  {| get_json := Ok (JObj (list_to_map fields)) |}.

Definition ann_request (time tz : string) : flask_request :=
  request_of [("name", JStr "Ann"); ("email", JStr "ann@example.com");
              ("time", JStr time); ("timezone", JStr tz)].

(** The body of [ann_request]. *)
Definition ann_body (time tz : string) : gmap string json :=
  list_to_map [("name", JStr "Ann"); ("email", JStr "ann@example.com");
               ("time", JStr time); ("timezone", JStr tz)].

(** The sample process with another environment. *)
Definition sample_world_with (r : result response) (api_key event_type_id : option string)
  : world :=
  {| date_parse := sample_parse;
     pytz_timezone := sample_timezone;
     requests_post := fun _ _ _ => r;
     int_of_str := sample_int;
     py_repr := fun _ => "<object>";
     _local_timezone := fun _ => Ok 0;
     CAL_API_KEY := api_key;
     CAL_EVENT_TYPE_ID := event_type_id |}.

(** An answer whose body is no JSON. *)
Definition bad_gateway : response :=
  {| status_code := 502;
     text := "<html>Bad Gateway</html>";
     res_json := Raise (Exc ValueError "Expecting value: line 1 column 1 (char 0)") |}.

(** An accepted booking whose [data] is [null]. *)
Definition created_without_data : response :=
  {| status_code := 201;
     text := "(the body the API sent)";
     res_json := Ok (JObj {[ "status" := JStr "success"; "data" := JNull ]}) |}.

(** ** The notions the properties are stated in *)

(** A wall clock a [datetime] can hold: years 1 to 9999. *)
Definition representable (w : Z) : Prop := 0 <= w < _MAXORDINAL * us_per_day.

(** The local wall-clock time, in the zone [tz], of the instant that the
    aware datetime [dt] (offset [o]) denotes. *)
Definition local_time (tz : timezone) (dt : datetime) (o : Z) : datetime :=
  let utc := utc_wall dt o in
  Datetime (utc + utcoffset_at tz utc * us_per_second) (Some (utcoffset_at tz utc)).

(** Monday to Friday, from 9:00 inclusive to 17:00 exclusive. *)
Definition business_hours (loc : datetime) : Prop :=
  0 <= weekday loc <= 4 /\ 9 <= hour loc < 17.

(** [data.get(k)] on the request body [m]. *)
Definition field (m : gmap string json) (k : string) : json := default JNull (m !! k).

(** The declared zone, with the default of each file. *)
Definition timezone_tool (m : gmap string json) : json :=
  default (JStr "Europe/Amsterdam") (m !! "timezone").
Definition timezone_app (m : gmap string json) : json :=
  default (JStr "UTC") (m !! "timezone").

(** [not name or not email or not time_str] on the request body [m]. *)
Definition a_field_is_missing (m : gmap string json) : bool :=
  negb (truthy (field m "name")) || negb (truthy (field m "email"))
  || negb (truthy (field m "time")).

(** The request body [m] passes every check of src/main.py, and
    [parsed_date] is its normalized time. *)
Definition validated_tool (W : world) (m : gmap string json) (parsed_date : datetime)
  : Prop :=
  a_field_is_missing m = false
  /\ exists tz avail_msg,
       pytz_timezone W (timezone_tool m) = Ok tz
       /\ normalize_time W tz (field m "time") = Ok parsed_date
       /\ is_available_slot W parsed_date (timezone_tool m) = Ok (true, avail_msg).

(** The same for src/app.py. *)
Definition validated_app (W : world) (m : gmap string json) (parsed_date : datetime)
  : Prop :=
  a_field_is_missing m = false
  /\ exists parsed avail_msg,
       date_parse W (field m "time") = Ok parsed
       /\ ensure_aware parsed = Ok parsed_date
       /\ is_available_slot W parsed_date (timezone_app m) = Ok (true, avail_msg).

(** The normalizer of src/app.py, lines 53-61 read together. *)
Definition normalize_time_app (W : world) (time_str : json) : result datetime :=
  parsed_date ← date_parse W time_str;
  ensure_aware parsed_date.

Definition bookings_url : string := "https://api.cal.com/v2/bookings".

(** The answer a handler gives once the API has answered (or the call has
    raised), the outer [except] included. *)
Definition answer_after (outcome : response -> io http_response)
  (posted : result response) : http_response :=
  (catch_all (res ← lift posted; outcome res)).1.

(** The API accepted the booking, as src/main.py reads its answer. *)
Definition upstream_success (res : response) : Prop :=
  status_code res = 201
  /\ exists b, res_json res = Ok (JObj b) /\ b !! "status" = Some (JStr "success").

(** The report of src/app.py 105-115 prints without raising. *)
Definition report_prints (booking_data : json) : Prop :=
  (print_booking booking_data []).1 = Ok tt.

Definition is_object (v : json) : bool :=
  match v with JObj _ => true | _ => false end.

(** The attendee block of a booking payload. *)
Definition attendee (name email user_timezone : json) : json :=
  JObj {[ "name" := name; "email" := email; "timeZone" := user_timezone ]}.

(** The request body [m] passes every step of src/main.py before the
    outbound call, which is made with [payload]; [iso_date] is the [start]
    it carries. *)
Definition tool_posts (W : world) (m : gmap string json) (iso_date : string)
  (payload : json) : Prop :=
  exists parsed_date utc_date event_type_id,
    validated_tool W m parsed_date
    /\ astimezone W parsed_date pytz_UTC = Ok utc_date
    /\ py_int W (CAL_EVENT_TYPE_ID W) = Ok event_type_id
    /\ iso_date = isoformat utc_date
    /\ payload = booking_payload iso_date event_type_id
                   (field m "name") (field m "email") (timezone_tool m).

(** The same for src/app.py; [parsed_date] is the time it has settled on. *)
Definition app_posts (W : world) (m : gmap string json) (parsed_date : datetime)
  (payload : json) : Prop :=
  exists event_type_id,
    validated_app W m parsed_date
    /\ py_int W (CAL_EVENT_TYPE_ID W) = Ok event_type_id
    /\ payload = booking_payload (isoformat parsed_date) event_type_id
                   (field m "name") (field m "email") (timezone_app m).

(** What a request may leave behind: no outbound call, or one call to the
    bookings URL with the configured headers. *)
Definition at_most_one_booking_call (W : world) (log : list post_call) : Prop :=
  log = [] \/ exists payload, log = [PostCall bookings_url payload (booking_headers W)].

(** The discipline of an answer and its outbound calls. *)
Definition disciplined (W : world) (out : http_response * list post_call) : Prop :=
  (out.1.2 = 200 \/ out.1.2 = 400 \/ out.1.2 = 500)
  /\ at_most_one_booking_call W out.2
  /\ (out.1.2 = 400 -> out.2 = [])
  /\ (out.1.2 = 200 -> out.2 <> []).

(** ** Conversions between zones *)

Lemma shift_Ok w s w' :
  shift w s = Ok w' <-> representable (w + s * us_per_second) /\ w' = w + s * us_per_second.
Proof.
  unfold shift, representable.
  destruct (Z.leb_spec 0 (w + s * us_per_second));
    destruct (Z.ltb_spec (w + s * us_per_second) (_MAXORDINAL * us_per_day));
    simpl; split; intros H1; try discriminate; try lia.
  - injection H1 as <-. lia.
  - destruct H1 as [_ ->]. reflexivity.
Qed.

Lemma shift_representable w s :
  representable (w + s * us_per_second) -> shift w s = Ok (w + s * us_per_second).
Proof. intros H. apply shift_Ok. auto. Qed.

Lemma astimezone_aware W dt o tz :
  tzinfo dt = Some o ->
  representable (utc_wall dt o) ->
  representable (wall (local_time tz dt o)) ->
  astimezone W dt tz = Ok (local_time tz dt o).
Proof.
  intros Ho Hu Hl. unfold astimezone, fromutc. rewrite Ho. simpl.
  replace (wall dt + - o * us_per_second) with (utc_wall dt o) in *
    by (unfold utc_wall; lia).
  rewrite shift_representable by (replace (wall dt + - o * us_per_second)
    with (utc_wall dt o) by (unfold utc_wall; lia); exact Hu).
  simpl.
  replace (wall dt + - o * us_per_second) with (utc_wall dt o)
    by (unfold utc_wall; lia).
  rewrite shift_representable by exact Hl. reflexivity.
Qed.

Lemma astimezone_aware_inv W dt o tz loc :
  tzinfo dt = Some o ->
  astimezone W dt tz = Ok loc ->
  representable (utc_wall dt o) /\ representable (wall (local_time tz dt o))
  /\ loc = local_time tz dt o.
Proof.
  intros Ho. unfold astimezone, fromutc. rewrite Ho. simpl.
  destruct (shift (wall dt) (- o)) as [u|e] eqn:Hs; simpl; [|discriminate].
  apply shift_Ok in Hs as [Hu ->].
  replace (wall dt + - o * us_per_second) with (utc_wall dt o) in *
    by (unfold utc_wall; lia).
  destruct (shift _ _) as [w|e] eqn:Hs; simpl; [|discriminate].
  apply shift_Ok in Hs as [Hl ->]. intros [= <-]. auto.
Qed.

(** The verdict, once the local time is known. *)
Lemma is_available_slot_local W dt timezone tz loc :
  pytz_timezone W timezone = Ok tz ->
  astimezone W dt tz = Ok loc ->
  is_available_slot W dt timezone =
    if 5 <=? weekday loc then Ok (false, "Not available on " +:+ strftime_A loc)
    else if (hour loc <? 9) || (17 <=? hour loc) then
      Ok (false, "Outside business hours (9 AM - 5 PM). Requested: "
                 +:+ str_int (hour loc) +:+ ":00")
    else Ok (true, "Available").
Proof.
  intros Htz Hloc. unfold is_available_slot.
  rewrite Htz. simpl. rewrite Hloc. reflexivity.
Qed.

Lemma weekday_range dt : 0 <= weekday dt < 7.
Proof. unfold weekday. apply Z.mod_pos_bound. lia. Qed.

(** C1. For every timezone-aware instant and every recognized zone name,
    [is_available_slot] answers available if and only if the instant's local
    wall-clock time in that zone exists as a datetime and falls on Monday to
    Friday with its hour in [9, 17); whenever the local time exists the check
    returns a verdict, and on a weekday 08:59 and 17:00 are unavailable while
    09:00 and 16:59 are available. *)
Theorem is_available_slot_business_hours W dt o name tz :
  tzinfo dt = Some o ->
  pytz_timezone W (JStr name) = Ok tz ->
  let loc := local_time tz dt o in
  ((exists reason, is_available_slot W dt (JStr name) = Ok (true, reason)) <->
     representable (utc_wall dt o) /\ representable (wall loc) /\ business_hours loc)
  /\ (representable (utc_wall dt o) -> representable (wall loc) ->
      exists b reason,
        is_available_slot W dt (JStr name) = Ok (b, reason)
        /\ (b = true <-> business_hours loc)
        /\ (weekday loc <= 4 ->
            (hour loc = 8 -> minute loc = 59 -> b = false)
            /\ (hour loc = 9 -> minute loc = 0 -> b = true)
            /\ (hour loc = 16 -> minute loc = 59 -> b = true)
            /\ (hour loc = 17 -> minute loc = 0 -> b = false))).
Proof.
  intros Ho Htz loc.
  assert (Hcase : representable (utc_wall dt o) -> representable (wall loc) ->
    exists b reason, is_available_slot W dt (JStr name) = Ok (b, reason)
                     /\ (b = true <-> business_hours loc)).
  { intros Hu Hl.
    rewrite (is_available_slot_local W dt _ tz loc Htz
               (astimezone_aware W dt o tz Ho Hu Hl)).
    pose proof (weekday_range loc) as Hw. unfold business_hours.
    destruct (Z.leb_spec 5 (weekday loc)).
    { eexists _, _. split; [reflexivity|]. split; [discriminate|lia]. }
    destruct (Z.ltb_spec (hour loc) 9); simpl.
    { eexists _, _. split; [reflexivity|]. split; [discriminate|lia]. }
    destruct (Z.leb_spec 17 (hour loc)); simpl;
      eexists _, _; (split; [reflexivity|]); split;
      try discriminate; try lia; auto. }
  split.
  - split.
    + intros [reason Hr].
      unfold is_available_slot in Hr. rewrite Htz in Hr. simpl in Hr.
      destruct (astimezone W dt tz) as [l|e] eqn:Ha; simpl in Hr; [|discriminate].
      apply (astimezone_aware_inv W dt o tz l Ho) in Ha as (Hu & Hl & ->).
      destruct (Hcase Hu Hl) as (b & r & Hb & Hiff).
      unfold is_available_slot in Hb. rewrite Htz in Hb. simpl in Hb.
      rewrite (astimezone_aware W dt o tz Ho Hu Hl) in Hb. simpl in Hb.
      fold loc in Hr, Hb. rewrite Hr in Hb. injection Hb as <- <-.
      repeat split; try apply Hu; try apply Hl; apply Hiff; reflexivity.
    + intros (Hu & Hl & Hb).
      destruct (Hcase Hu Hl) as (b & r & Hr & Hiff).
      apply Hiff in Hb. subst b. eauto.
  - intros Hu Hl. destruct (Hcase Hu Hl) as (b & r & Hr & Hiff).
    exists b, r. split; [exact Hr|]. split; [exact Hiff|].
    intros Hwd. pose proof (weekday_range loc) as Hw.
    unfold business_hours in Hiff.
    repeat split; intros Hh Hm; destruct b; try reflexivity;
      try (exfalso; apply (proj1 Hiff) in Hh as ?; [lia|reflexivity]);
      try (destruct Hiff as [Hiff1 Hiff2]);
      try (specialize (Hiff1 eq_refl); lia);
      try (apply Hiff2; lia).
Qed.

(** C6. A local time on Saturday or Sunday is refused, whatever the hour,
    with a reason that names that day; a weekday local time with its hour
    outside [9, 17) is refused with a reason that states the 9 AM - 5 PM
    window and the offending hour. *)
Theorem is_available_slot_reasons W dt o name tz :
  tzinfo dt = Some o ->
  pytz_timezone W (JStr name) = Ok tz ->
  representable (utc_wall dt o) ->
  representable (wall (local_time tz dt o)) ->
  let loc := local_time tz dt o in
  (weekday loc = 5 ->
     is_available_slot W dt (JStr name) = Ok (false, "Not available on Saturday"))
  /\ (weekday loc = 6 ->
     is_available_slot W dt (JStr name) = Ok (false, "Not available on Sunday"))
  /\ (weekday loc <= 4 -> hour loc < 9 \/ 17 <= hour loc ->
     is_available_slot W dt (JStr name) =
       Ok (false, "Outside business hours (9 AM - 5 PM). Requested: "
                  +:+ str_int (hour loc) +:+ ":00")).
Proof.
  intros Ho Htz Hu Hl loc.
  rewrite (is_available_slot_local W dt _ tz loc Htz
             (astimezone_aware W dt o tz Ho Hu Hl)).
  repeat split.
  - intros Hw. unfold strftime_A. rewrite Hw. reflexivity.
  - intros Hw. unfold strftime_A. rewrite Hw. reflexivity.
  - intros Hw Hh.
    destruct (Z.leb_spec 5 (weekday loc)); [lia|].
    destruct (Z.ltb_spec (hour loc) 9); [reflexivity|].
    destruct (Z.leb_spec 17 (hour loc)); [reflexivity|lia].
Qed.

(** ** The handlers, step by step *)

Section Handlers.

Variable W : world.

Lemma schedule_meeting_tool_missing m :
  a_field_is_missing m = true ->
  schedule_meeting_tool W (Request (Ok (JObj m))) = (missing_fields, []).
Proof.
  intros H. unfold a_field_is_missing, field in H.
  unfold schedule_meeting_tool, catch_all, schedule_meeting_tool_try.
  cbn [get_json]. run_io. rewrite H. reflexivity.
Qed.

Lemma schedule_meeting_missing m :
  a_field_is_missing m = true ->
  schedule_meeting W (Request (Ok (JObj m))) = (missing_fields, []).
Proof.
  intros H. unfold a_field_is_missing, field in H.
  unfold schedule_meeting, catch_all, schedule_meeting_try.
  cbn [get_json]. run_io. rewrite H. reflexivity.
Qed.

(** What follows the outbound call leaves the log alone. *)
Lemma booking_outcome_tool_log iso_date res log :
  booking_outcome_tool iso_date res log =
    ((booking_outcome_tool iso_date res []).1, log).
Proof.
  unfold booking_outcome_tool. run_io.
  destruct (res_json res) as [[]|]; try reflexivity.
  destruct (negb (status_code res =? 201)); [reflexivity|].
  destruct (negb (py_eq_str _ _)); reflexivity.
Qed.

Lemma print_booking_log booking_data log :
  print_booking booking_data log = ((print_booking booking_data []).1, log).
Proof.
  unfold print_booking. run_io.
  destruct booking_data; try reflexivity.
  destruct (default _ _); try reflexivity.
  destruct (default _ _); reflexivity.
Qed.

Lemma booking_outcome_log parsed_date res log :
  booking_outcome parsed_date res log =
    ((booking_outcome parsed_date res []).1, log).
Proof.
  unfold booking_outcome. run_io.
  destruct (res_json res) as [[]|]; try reflexivity.
  destruct (py_eq_str _ _).
  - rewrite print_booking_log.
    destruct (print_booking _ []) as [[] ?]; reflexivity.
  - destruct (negb _); reflexivity.
Qed.

(** A validated request in src/main.py: one outbound call, whose payload
    carries the UTC form of the normalized time, and the answer the API's
    response leads to. *)
Lemma schedule_meeting_tool_run m parsed_date utc_date event_type_id :
  validated_tool W m parsed_date ->
  astimezone W parsed_date pytz_UTC = Ok utc_date ->
  py_int W (CAL_EVENT_TYPE_ID W) = Ok event_type_id ->
  let payload :=
    booking_payload (isoformat utc_date) event_type_id
      (field m "name") (field m "email") (timezone_tool m) in
  schedule_meeting_tool W (Request (Ok (JObj m))) =
    (answer_after (booking_outcome_tool (isoformat utc_date))
       (requests_post W bookings_url payload (booking_headers W)),
     [PostCall bookings_url payload (booking_headers W)]).
Proof.
  intros (Hf & tz & msg & Htz & Hn & Ha) Hu Hi payload.
  unfold a_field_is_missing, field, timezone_tool in *.
  unfold schedule_meeting_tool, answer_after, catch_all, schedule_meeting_tool_try.
  cbn [get_json]. run_io. rewrite Hf, Htz, Hn, Ha. cbn [negb].
  rewrite Hu, Hi. unfold post. cbn [app].
  fold bookings_url. fold payload.
  destruct (requests_post W bookings_url payload (booking_headers W)) as [res|e];
    [|reflexivity].
  rewrite booking_outcome_tool_log.
  rewrite (booking_outcome_tool_log _ _ []).
  destruct (booking_outcome_tool _ _ _) as [[] ?]; reflexivity.
Qed.

(** The same for src/app.py, whose payload carries the normalized time as
    it stands. *)
Lemma schedule_meeting_run m parsed_date event_type_id :
  validated_app W m parsed_date ->
  py_int W (CAL_EVENT_TYPE_ID W) = Ok event_type_id ->
  let payload :=
    booking_payload (isoformat parsed_date) event_type_id
      (field m "name") (field m "email") (timezone_app m) in
  schedule_meeting W (Request (Ok (JObj m))) =
    (answer_after (booking_outcome parsed_date)
       (requests_post W bookings_url payload (booking_headers W)),
     [PostCall bookings_url payload (booking_headers W)]).
Proof.
  intros (Hf & parsed & msg & Hp & He & Ha) Hi payload.
  unfold a_field_is_missing, field, timezone_app in *.
  unfold schedule_meeting, answer_after, catch_all, schedule_meeting_try.
  cbn [get_json]. run_io. rewrite Hf, Hp, He, Ha. cbn [negb].
  rewrite Hi. unfold post. cbn [app].
  fold bookings_url. fold payload.
  destruct (requests_post W bookings_url payload (booking_headers W)) as [res|e];
    [|reflexivity].
  rewrite booking_outcome_log.
  rewrite (booking_outcome_log _ _ []).
  destruct (booking_outcome _ _ _) as [[] ?]; reflexivity.
Qed.

End Handlers.

(** ** The required fields *)

(** C7. When the JSON object of the request body lacks any of [name],
    [email] or [time], whichever and however many, both handlers answer
    HTTP 400 with the missing-fields error and make no outbound call. *)
Theorem absent_field_is_rejected W (m : gmap string json) :
  m !! "name" = None \/ m !! "email" = None \/ m !! "time" = None ->
  schedule_meeting_tool W (Request (Ok (JObj m))) = (missing_fields, [])
  /\ schedule_meeting W (Request (Ok (JObj m))) = (missing_fields, [])
  /\ missing_fields =
       (JObj {[ "error" := JStr "Missing required fields: name, email, time" ]}, 400).
Proof.
  intros H.
  assert (Hm : a_field_is_missing m = true).
  { unfold a_field_is_missing, field.
    destruct H as [-> | [-> | ->]]; cbn [default truthy negb];
      rewrite ?orb_true_r; reflexivity. }
  split; [|split].
  - apply schedule_meeting_tool_missing, Hm.
  - apply schedule_meeting_missing, Hm.
  - reflexivity.
Qed.

(** C10. A [name], [email] or [time] that is present but is the empty string
    is answered like an absent one, HTTP 400 with the missing-fields error,
    so it reaches neither the normalization nor the outbound call. *)
Theorem empty_field_is_rejected W (m : gmap string json) :
  m !! "name" = Some (JStr "") \/ m !! "email" = Some (JStr "")
  \/ m !! "time" = Some (JStr "") ->
  schedule_meeting_tool W (Request (Ok (JObj m))) = (missing_fields, [])
  /\ schedule_meeting W (Request (Ok (JObj m))) = (missing_fields, [])
  /\ missing_fields.2 = 400.
Proof.
  intros H.
  assert (Hm : a_field_is_missing m = true).
  { unfold a_field_is_missing, field.
    destruct H as [-> | [-> | ->]]; cbn [default truthy negb String.eqb];
      rewrite ?orb_true_r; reflexivity. }
  split; [|split].
  - apply schedule_meeting_tool_missing, Hm.
  - apply schedule_meeting_missing, Hm.
  - reflexivity.
Qed.

(** ** The duration *)

(** C9. Two request bodies that agree on every field but [duration] (its
    value, or whether it is there at all) get the same answer and cause the
    same outbound calls, in both handlers. *)
Theorem duration_is_ignored W (m1 m2 : gmap string json) :
  (forall k : string, k <> "duration" -> m1 !! k = m2 !! k) ->
  schedule_meeting_tool W (Request (Ok (JObj m1)))
    = schedule_meeting_tool W (Request (Ok (JObj m2)))
  /\ schedule_meeting W (Request (Ok (JObj m1)))
    = schedule_meeting W (Request (Ok (JObj m2))).
Proof.
  intros H.
  assert (Hn : m1 !! "name" = m2 !! "name") by (apply H; discriminate).
  assert (He : m1 !! "email" = m2 !! "email") by (apply H; discriminate).
  assert (Ht : m1 !! "time" = m2 !! "time") by (apply H; discriminate).
  assert (Hz : m1 !! "timezone" = m2 !! "timezone") by (apply H; discriminate).
  split.
  - unfold schedule_meeting_tool, catch_all, schedule_meeting_tool_try.
    cbn [get_json]. run_io. rewrite Hn, He, Ht, Hz. reflexivity.
  - unfold schedule_meeting, catch_all, schedule_meeting_try.
    cbn [get_json]. run_io. rewrite Hn, He, Ht, Hz. reflexivity.
Qed.

(** ** The normalized time *)

Lemma astimezone_UTC W dt o utc :
  tzinfo dt = Some o ->
  astimezone W dt pytz_UTC = Ok utc ->
  representable (utc_wall dt o) /\ utc = Datetime (utc_wall dt o) (Some 0).
Proof.
  intros Ho Ha. apply (astimezone_aware_inv W dt o pytz_UTC utc Ho) in Ha as (Hu & _ & ->).
  split; [exact Hu|]. unfold local_time. cbn [utcoffset_at pytz_UTC].
  f_equal. lia.
Qed.

Lemma astimezone_UTC_representable W dt o :
  tzinfo dt = Some o ->
  representable (utc_wall dt o) ->
  astimezone W dt pytz_UTC = Ok (Datetime (utc_wall dt o) (Some 0)).
Proof.
  intros Ho Hu. rewrite (astimezone_aware W dt o pytz_UTC Ho Hu).
  - unfold local_time. cbn [utcoffset_at pytz_UTC]. do 2 f_equal. lia.
  - unfold local_time. cbn [utcoffset_at pytz_UTC wall].
    replace (utc_wall dt o + 0 * us_per_second) with (utc_wall dt o) by lia. exact Hu.
Qed.

Lemma isoformat_UTC_offset w :
  exists prefix, isoformat (Datetime w (Some 0)) = prefix +:+ "+00:00".
Proof.
  unfold isoformat, isoformat_sep. destruct (_ord2ymd _) as [[y m] d].
  eexists. reflexivity.
Qed.

Lemma normalize_time_aware W tz time_str dt :
  normalize_time W tz time_str = Ok dt -> exists o, tzinfo dt = Some o.
Proof.
  unfold normalize_time. destruct (date_parse W time_str) as [p|]; cbn; [|discriminate].
  destruct (tzinfo p) as [o|] eqn:Hp.
  - unfold astimezone, fromutc. rewrite Hp. cbn.
    destruct (shift _ _); cbn; [|discriminate].
    destruct (shift _ _); cbn; [|discriminate].
    intros [= <-]. eauto.
  - unfold localize. rewrite Hp.
    destruct (localize_offset _ _); cbn; [|discriminate].
    intros [= <-]. eauto.
Qed.

(** C2, as the code has it.  A parse result without zone information gets,
    in src/main.py, the zone the request declares: the wall clock is kept and
    read as local time there, so that 2025-01-10 10:00 at UTC-05:00 is the
    instant 2025-01-10T15:00:00+00:00.  In src/app.py it is taken to be UTC,
    whatever zone the request declares. *)
Theorem naive_time_gets_a_zone W tz time_str parsed :
  date_parse W time_str = Ok parsed ->
  tzinfo parsed = None ->
  normalize_time W tz time_str = localize tz parsed
  /\ (forall o, localize_offset tz (wall parsed) = Ok o ->
        normalize_time W tz time_str = Ok (Datetime (wall parsed) (Some o)))
  /\ (wall parsed = wall (mk_datetime 2025 1 10 10 0 0 None) ->
      localize_offset tz (wall parsed) = Ok (-18000) ->
      exists dt utc,
        normalize_time W tz time_str = Ok dt
        /\ astimezone W dt pytz_UTC = Ok utc
        /\ isoformat utc = "2025-01-10T15:00:00+00:00")
  /\ normalize_time_app W time_str = Ok (Datetime (wall parsed) (Some 0)).
Proof.
  intros Hp Hn.
  assert (H1 : normalize_time W tz time_str = localize tz parsed).
  { unfold normalize_time. rewrite Hp. cbn. rewrite Hn. reflexivity. }
  assert (H2 : forall o, localize_offset tz (wall parsed) = Ok o ->
                normalize_time W tz time_str = Ok (Datetime (wall parsed) (Some o))).
  { intros o Ho. rewrite H1. unfold localize. rewrite Hn, Ho. reflexivity. }
  repeat split; try assumption.
  - intros Hw Ho.
    exists (Datetime (wall parsed) (Some (-18000))),
           (Datetime (utc_wall (Datetime (wall parsed) (Some (-18000))) (-18000)) (Some 0)).
    split; [apply H2, Ho|]. split.
    + apply astimezone_UTC_representable; [reflexivity|].
      unfold utc_wall. cbn [wall]. rewrite Hw.
      vm_compute. split; [discriminate|reflexivity].
    + unfold utc_wall. cbn [wall]. rewrite Hw. vm_compute. reflexivity.
  - unfold normalize_time_app. rewrite Hp. cbn.
    unfold ensure_aware, localize. rewrite Hn. reflexivity.
Qed.

(** ** The answer of the booking API *)

Lemma status_is_success (b : gmap string json) :
  py_eq_str (default JNull (b !! "status")) "success" = true
  <-> b !! "status" = Some (JStr "success").
Proof.
  destruct (b !! "status") as [[]|]; cbn; split; try discriminate.
  - intros H%String.eqb_eq. subst. reflexivity.
  - intros [= ->]. reflexivity.
Qed.

Lemma booking_outcome_tool_answer iso_date res :
  let r := answer_after (booking_outcome_tool iso_date) (Ok res) in
  (r.2 = 200 <-> upstream_success res)
  /\ (upstream_success res ->
      exists b, res_json res = Ok (JObj b)
                /\ r = scheduled iso_date (default JNull (b !! "data")))
  /\ (~ upstream_success res ->
      r.2 = 500
      /\ forall b, res_json res = Ok (JObj b) -> r = upstream_failure (JObj b)).
Proof.
  unfold answer_after, catch_all, booking_outcome_tool, upstream_success. run_io.
  destruct (res_json res) as [bd|e] eqn:Hj.
  2:{ cbn. split; [|split].
      - split; [discriminate|]. intros (_ & b & [=] & _).
      - intros (_ & b & [=] & _).
      - intros _. split; [reflexivity|]. intros b [=]. }
  destruct bd as [| | | | | |b];
    try (cbn; split; [|split];
         [ split; [discriminate|]; intros (_ & b' & [=] & _)
         | intros (_ & b' & [=] & _)
         | intros _; split; [reflexivity|]; intros b' [=] ]).
  destruct (Z.eqb_spec (status_code res) 201) as [Hc|Hc]; cbn [negb].
  - pose proof (status_is_success b) as Hs.
    destruct (py_eq_str (default JNull (b !! "status")) "success"); cbn.
    + assert (Hb : b !! "status" = Some (JStr "success")) by (apply Hs; reflexivity).
      split; [|split].
      * split; [|reflexivity]. intros _. eauto.
      * intros _. exists b. split; reflexivity.
      * intros Hneg. exfalso. apply Hneg. eauto.
    + assert (Hb : b !! "status" <> Some (JStr "success")).
      { intros Hb. apply Hs in Hb. discriminate. }
      split; [|split].
      * split; [discriminate|]. intros (_ & b' & [= <-] & Hb'). contradiction.
      * intros (_ & b' & [= <-] & Hb'). contradiction.
      * intros _. split; [reflexivity|]. intros b' [= <-]. reflexivity.
  - cbn. split; [|split].
    + split; [discriminate|]. intros (Hc' & _). contradiction.
    + intros (Hc' & _). contradiction.
    + intros _. split; [reflexivity|]. intros b' [= <-]. reflexivity.
Qed.

Lemma booking_outcome_answer parsed_date res b :
  res_json res = Ok (JObj b) ->
  let r := answer_after (booking_outcome parsed_date) (Ok res) in
  (b !! "status" <> Some (JStr "success") ->
     (status_code res = 200 -> r = scheduled (str_datetime parsed_date) (JObj b))
     /\ (status_code res <> 200 -> r = upstream_failure (JStr (text res))))
  /\ (b !! "status" = Some (JStr "success") -> report_prints (JObj b) ->
      r = scheduled (str_datetime parsed_date) (JObj b)).
Proof.
  intros Hj. unfold answer_after, catch_all, booking_outcome, report_prints.
  run_io. rewrite Hj.
  pose proof (status_is_success b) as Hs.
  destruct (py_eq_str (default JNull (b !! "status")) "success").
  - assert (Hb : b !! "status" = Some (JStr "success")) by (apply Hs; reflexivity).
    split; [intros Hneg; contradiction|].
    intros _ Hp. destruct (print_booking (JObj b) []) as [[[]|] ?]; cbn in *;
      [reflexivity|discriminate].
  - assert (Hb : b !! "status" <> Some (JStr "success")).
    { intros Hb. apply Hs in Hb. discriminate. }
    split; [|intros Hb'; contradiction].
    intros _. destruct (Z.eqb_spec (status_code res) 200); cbn; split;
      intros; try reflexivity; contradiction.
Qed.

(** C4, as the code has it.  Once a validated request has been posted and
    the API has answered [res]:
    - src/main.py answers HTTP 200, with the confirmation and the body's
      [data], exactly when the upstream status is 201 and the body is a JSON
      object whose [status] is ["success"]; every other answer gets HTTP 500,
      and when its body is a JSON object that body is forwarded in the
      booking-failure error;
    - src/app.py, for a JSON-object body, looks at the body first: a [status]
      other than ["success"] is a booking failure (HTTP 500, forwarding the
      raw body) only when the upstream status is not 200, and a success
      otherwise; a [status] of ["success"] is a success whatever the upstream
      status, once the report has been printed. *)
Theorem upstream_answer_decides W (m : gmap string json) res :
  (forall parsed_date utc_date event_type_id,
     validated_tool W m parsed_date ->
     astimezone W parsed_date pytz_UTC = Ok utc_date ->
     py_int W (CAL_EVENT_TYPE_ID W) = Ok event_type_id ->
     requests_post W bookings_url
       (booking_payload (isoformat utc_date) event_type_id
          (field m "name") (field m "email") (timezone_tool m))
       (booking_headers W) = Ok res ->
     let r := (schedule_meeting_tool W (Request (Ok (JObj m)))).1 in
     (r.2 = 200 <-> upstream_success res)
     /\ (upstream_success res ->
         exists b, res_json res = Ok (JObj b)
                   /\ r = scheduled (isoformat utc_date) (default JNull (b !! "data")))
     /\ (~ upstream_success res ->
         r.2 = 500
         /\ forall b, res_json res = Ok (JObj b) -> r = upstream_failure (JObj b)))
  /\ (forall parsed_date event_type_id b,
     validated_app W m parsed_date ->
     py_int W (CAL_EVENT_TYPE_ID W) = Ok event_type_id ->
     requests_post W bookings_url
       (booking_payload (isoformat parsed_date) event_type_id
          (field m "name") (field m "email") (timezone_app m))
       (booking_headers W) = Ok res ->
     res_json res = Ok (JObj b) ->
     let r := (schedule_meeting W (Request (Ok (JObj m)))).1 in
     (b !! "status" <> Some (JStr "success") ->
        (status_code res = 200 -> r = scheduled (str_datetime parsed_date) (JObj b))
        /\ (status_code res <> 200 -> r = upstream_failure (JStr (text res))))
     /\ (b !! "status" = Some (JStr "success") -> report_prints (JObj b) ->
         r = scheduled (str_datetime parsed_date) (JObj b))).
Proof.
  split.
  - intros parsed_date utc_date id Hv Hu Hi Hp.
    rewrite (schedule_meeting_tool_run W m parsed_date utc_date id Hv Hu Hi).
    cbn [fst]. rewrite Hp. apply booking_outcome_tool_answer.
  - intros parsed_date id b Hv Hi Hp Hj.
    rewrite (schedule_meeting_run W m parsed_date id Hv Hi).
    cbn [fst]. rewrite Hp. apply booking_outcome_answer, Hj.
Qed.

(** ** The specific errors of src/main.py, and what it sends *)

Lemma schedule_meeting_tool_unparsable W (m : gmap string json) tz e :
  a_field_is_missing m = false ->
  pytz_timezone W (timezone_tool m) = Ok tz ->
  normalize_time W tz (field m "time") = Raise e ->
  schedule_meeting_tool W (Request (Ok (JObj m)))
    = (unparsable_time_tool W (field m "time") e, []).
Proof.
  intros Hf Htz Hn. unfold a_field_is_missing, field, timezone_tool in *.
  unfold schedule_meeting_tool, catch_all, schedule_meeting_tool_try.
  cbn [get_json]. run_io. rewrite Hf, Htz, Hn. reflexivity.
Qed.

Lemma schedule_meeting_tool_unavailable W (m : gmap string json) tz parsed_date avail_msg :
  a_field_is_missing m = false ->
  pytz_timezone W (timezone_tool m) = Ok tz ->
  normalize_time W tz (field m "time") = Ok parsed_date ->
  is_available_slot W parsed_date (timezone_tool m) = Ok (false, avail_msg) ->
  schedule_meeting_tool W (Request (Ok (JObj m)))
    = (slot_unavailable avail_msg "Monday-Friday, 9:00 AM - 5:00 PM in your timezone",
       []).
Proof.
  intros Hf Htz Hn Ha. unfold a_field_is_missing, field, timezone_tool in *.
  unfold schedule_meeting_tool, catch_all, schedule_meeting_tool_try.
  cbn [get_json]. run_io. rewrite Hf, Htz, Hn, Ha. reflexivity.
Qed.

(** The outer [except] of both handlers: whatever the body raises is
    answered as the internal error, and an answer the body returns is
    passed on. *)
Lemma catch_all_answers (body : io http_response) r e log :
  (body [] = (Ok r, log) -> catch_all body = (r, log))
  /\ (body [] = (Raise e, log) -> catch_all body = (internal_error e, log)).
Proof. unfold catch_all. split; intros ->; reflexivity. Qed.

Lemma schedule_meeting_tool_invalid_timezone W (m : gmap string json) e :
  a_field_is_missing m = false ->
  pytz_timezone W (timezone_tool m) = Raise e ->
  is_unknown_tz e = true ->
  schedule_meeting_tool W (Request (Ok (JObj m)))
    = (invalid_timezone W (timezone_tool m), []).
Proof.
  intros Hf Htz He. unfold a_field_is_missing, field, timezone_tool in *.
  unfold schedule_meeting_tool, catch_all, schedule_meeting_tool_try.
  cbn [get_json]. run_io. rewrite Hf, Htz, He. reflexivity.
Qed.

(** In src/app.py nothing looks at the zone before [is_available_slot]
    does, inside the outer [try] only. *)
Lemma schedule_meeting_invalid_timezone W (m : gmap string json) parsed_date e :
  a_field_is_missing m = false ->
  normalize_time_app W (field m "time") = Ok parsed_date ->
  pytz_timezone W (timezone_app m) = Raise e ->
  schedule_meeting W (Request (Ok (JObj m))) = (internal_error e, []).
Proof.
  intros Hf Hn Htz. unfold a_field_is_missing, field, timezone_app in *.
  unfold normalize_time_app in Hn.
  unfold schedule_meeting, catch_all, schedule_meeting_try.
  cbn [get_json]. run_io. rewrite Hf.
  destruct (date_parse W _) as [p|]; [|discriminate]. cbn in Hn. rewrite Hn.
  unfold is_available_slot. rewrite Htz. reflexivity.
Qed.

Lemma booking_payload_start iso_date event_type_id name email user_timezone :
  py_get (booking_payload iso_date event_type_id name email user_timezone) "start"
  = Ok (JStr iso_date).
Proof. unfold py_get, py_get_default, booking_payload. rewrite lookup_insert_eq. reflexivity. Qed.

(** The [start] src/main.py sends is the normalized instant, in UTC. *)
Lemma schedule_meeting_tool_start_is_utc W (m : gmap string json)
  parsed_date utc_date event_type_id :
  validated_tool W m parsed_date ->
  astimezone W parsed_date pytz_UTC = Ok utc_date ->
  py_int W (CAL_EVENT_TYPE_ID W) = Ok event_type_id ->
  exists o payload prefix,
    (schedule_meeting_tool W (Request (Ok (JObj m)))).2
      = [PostCall bookings_url payload (booking_headers W)]
    /\ py_get payload "start" = Ok (JStr (isoformat utc_date))
    /\ tzinfo parsed_date = Some o
    /\ utc_date = Datetime (utc_wall parsed_date o) (Some 0)
    /\ isoformat utc_date = prefix +:+ "+00:00".
Proof.
  intros Hv Hu Hi.
  destruct Hv as (Hf & tz & msg & Htz & Hn & Ha).
  destruct (normalize_time_aware W tz _ _ Hn) as [o Ho].
  destruct (astimezone_UTC W _ o _ Ho Hu) as [_ Hutc].
  destruct (isoformat_UTC_offset (utc_wall parsed_date o)) as [prefix Hpre].
  exists o, (booking_payload (isoformat utc_date) event_type_id
               (field m "name") (field m "email") (timezone_tool m)), prefix.
  rewrite (schedule_meeting_tool_run W m parsed_date utc_date event_type_id);
    [|split; eauto|assumption|assumption].
  split; [reflexivity|]. split; [apply booking_payload_start|].
  split; [exact Ho|]. split; [exact Hutc|]. rewrite Hutc. exact Hpre.
Qed.

(** ** The handlers on concrete requests *)

(** C3, at a request src/app.py can receive: a time string with its own
    offset, 12:00 at +02:00, is sent to the API as it was parsed, while
    src/main.py sends the same instant in UTC. *)
Theorem app_py_start_keeps_parsed_offset :
  let W := sample_world (Ok created) in
  let request := ann_request "2025-01-10T12:00:00+02:00" "UTC" in
  map (fun c => py_get (post_json c) "start") (schedule_meeting W request).2
    = [Ok (JStr "2025-01-10T12:00:00+02:00")]
  /\ (schedule_meeting W request).1.2 = 200
  /\ map (fun c => py_get (post_json c) "start") (schedule_meeting_tool W request).2
    = [Ok (JStr "2025-01-10T10:00:00+00:00")].
Proof. vm_compute. repeat split; reflexivity. Qed.

(** C5, at a request src/app.py can receive: the zone ["Mars/Phobos"] comes
    back as HTTP 500 from the outer [except], while src/main.py answers
    HTTP 400 with the invalid-timezone error. *)
Theorem app_py_unknown_zone_is_internal_error :
  let W := sample_world (Ok created) in
  let request := ann_request "2025-01-10 10:00" "Mars/Phobos" in
  schedule_meeting W request
    = ((JObj {[ "error" := JStr "Internal Server Error";
                "details" := JStr "'Mars/Phobos'" ]}, 500), [])
  /\ schedule_meeting_tool W request
    = ((JObj {[ "error" := JStr "Invalid timezone: Mars/Phobos" ]}, 400), []).
Proof. vm_compute. split; reflexivity. Qed.

(** C8, at a request src/app.py can receive: the body of the handler raises
    [UnknownTimeZoneError] for the zone ["Moon/Base"], and the outer [except]
    answers it as an internal error. *)
Theorem app_py_catch_all_answers_unknown_zone :
  let W := sample_world (Ok created) in
  let request := ann_request "2025-01-10 10:00" "Moon/Base" in
  schedule_meeting_try W request []
    = (Raise (Exc UnknownTimeZoneError "'Moon/Base'"), [])
  /\ schedule_meeting W request
    = (internal_error (Exc UnknownTimeZoneError "'Moon/Base'"), [])
  /\ (schedule_meeting W request).1.2 = 500
  /\ schedule_meeting_tool W request
    = (invalid_timezone W (JStr "Moon/Base"), []).
Proof. vm_compute. repeat split; reflexivity. Qed.

(** What src/main.py answers when the API says HTTP 200 with an error
    body. *)
Example main_py_error_200_is_failure :
  schedule_meeting_tool (sample_world (Ok error_200))
    (ann_request "2025-01-10 10:00" "America/New_York")
  = (upstream_failure (JObj {[ "status" := JStr "error" ]}),
     [PostCall bookings_url
        (booking_payload "2025-01-10T15:00:00+00:00" 42 (JStr "Ann")
           (JStr "ann@example.com") (JStr "America/New_York"))
        (booking_headers (sample_world (Ok error_200)))]).
Proof. vm_compute. reflexivity. Qed.

(** C4 at src/app.py: HTTP 200 from the API with the body
    [{"status": "error"}] is answered as a success, HTTP 200, not as a
    booking failure. *)
Lemma app_py_takes_error_200_for_success :
  let W := sample_world (Ok error_200) in
  let request := ann_request "2025-01-10 10:00" "UTC" in
  (schedule_meeting W request).1
    = scheduled "2025-01-10 10:00:00+00:00" (JObj {[ "status" := JStr "error" ]})
  /\ (schedule_meeting W request).1.2 = 200
  /\ (schedule_meeting W request).1.2 <> 500
  /\ length (schedule_meeting W request).2 = 1%nat.
Proof. vm_compute. repeat split; try reflexivity. discriminate. Qed.

(** C2 at src/app.py: the zone-naive ["2025-01-10 10:00"] becomes
    10:00 UTC, not 15:00 UTC, and with ["America/New_York"] declared the
    request is refused as 5:00 local time. *)
Lemma app_py_reads_naive_time_as_utc :
  let W := sample_world (Ok created) in
  let time_str := JStr "2025-01-10 10:00" in
  (exists parsed, date_parse W time_str = Ok parsed /\ tzinfo parsed = None)
  /\ (exists dt utc,
        normalize_time_app W time_str = Ok dt
        /\ astimezone W dt pytz_UTC = Ok utc
        /\ isoformat utc = "2025-01-10T10:00:00+00:00")
  /\ ~ (exists dt utc,
        normalize_time_app W time_str = Ok dt
        /\ astimezone W dt pytz_UTC = Ok utc
        /\ isoformat utc = "2025-01-10T15:00:00+00:00")
  /\ schedule_meeting W (ann_request "2025-01-10 10:00" "America/New_York")
     = (slot_unavailable "Outside business hours (9 AM - 5 PM). Requested: 5:00"
          "Monday-Friday, 9:00 AM - 5:00 PM UTC", []).
Proof.
  intros W time_str. split; [|split; [|split]].
  - exists (mk_datetime 2025 1 10 10 0 0 None). split; vm_compute; reflexivity.
  - exists (mk_datetime 2025 1 10 10 0 0 (Some 0)), (mk_datetime 2025 1 10 10 0 0 (Some 0)).
    repeat split; vm_compute; reflexivity.
  - intros (dt & utc & Hn & Ha & Hi).
    vm_compute in Hn. injection Hn as <-.
    vm_compute in Ha. injection Ha as <-.
    vm_compute in Hi. discriminate.
  - vm_compute. reflexivity.
Qed.

(** The four times of day at the edges of the window, on Friday
    2025-01-10 in New York (UTC-05:00). *)
Example new_york_0859 :
  is_available_slot (sample_world (Ok created))
    (mk_datetime 2025 1 10 13 59 0 (Some 0)) (JStr "America/New_York")
  = Ok (false, "Outside business hours (9 AM - 5 PM). Requested: 8:00").
Proof. vm_compute. reflexivity. Qed.

Example new_york_0900 :
  is_available_slot (sample_world (Ok created))
    (mk_datetime 2025 1 10 14 0 0 (Some 0)) (JStr "America/New_York")
  = Ok (true, "Available").
Proof. vm_compute. reflexivity. Qed.

Example new_york_1659 :
  is_available_slot (sample_world (Ok created))
    (mk_datetime 2025 1 10 21 59 0 (Some 0)) (JStr "America/New_York")
  = Ok (true, "Available").
Proof. vm_compute. reflexivity. Qed.

Example new_york_1700 :
  is_available_slot (sample_world (Ok created))
    (mk_datetime 2025 1 10 22 0 0 (Some 0)) (JStr "America/New_York")
  = Ok (false, "Outside business hours (9 AM - 5 PM). Requested: 17:00").
Proof. vm_compute. reflexivity. Qed.

(** ** The theorems at concrete inputs *)

Lemma is_available_slot_business_hours_witness :
  let W := sample_world (Ok created) in
  let dt := mk_datetime 2025 1 10 15 0 0 (Some 0) in
  tzinfo dt = Some 0
  /\ pytz_timezone W (JStr "America/New_York") = Ok America_New_York
  /\ exists reason, is_available_slot W dt (JStr "America/New_York") = Ok (true, reason).
Proof.
  intros W dt. split; [reflexivity|]. split; [reflexivity|].
  apply (proj1 (is_available_slot_business_hours W dt 0 "America/New_York"
                  America_New_York eq_refl eq_refl)).
  vm_compute. repeat split; discriminate || reflexivity.
Defined.

Lemma is_available_slot_reasons_witness :
  let W := sample_world (Ok created) in
  let dt := mk_datetime 2025 1 11 15 0 0 (Some 0) in
  tzinfo dt = Some 0
  /\ pytz_timezone W (JStr "America/New_York") = Ok America_New_York
  /\ representable (utc_wall dt 0)
  /\ representable (wall (local_time America_New_York dt 0))
  /\ is_available_slot W dt (JStr "America/New_York")
     = Ok (false, "Not available on Saturday").
Proof.
  intros W dt.
  assert (Hu : representable (utc_wall dt 0))
    by (vm_compute; split; [discriminate|reflexivity]).
  assert (Hl : representable (wall (local_time America_New_York dt 0)))
    by (vm_compute; split; [discriminate|reflexivity]).
  split; [reflexivity|]. split; [reflexivity|]. split; [exact Hu|]. split; [exact Hl|].
  apply (proj1 (is_available_slot_reasons W dt 0 "America/New_York"
                  America_New_York eq_refl eq_refl Hu Hl)).
  vm_compute. reflexivity.
Defined.

Lemma absent_field_is_rejected_witness :
  let W := sample_world (Ok created) in
  let m : gmap string json :=
    list_to_map [("email", JStr "ann@example.com"); ("time", JStr "2025-01-10 10:00")] in
  m !! "name" = None
  /\ schedule_meeting_tool W (Request (Ok (JObj m))) = (missing_fields, []).
Proof.
  intros W m.
  assert (H : m !! "name" = None) by (vm_compute; reflexivity).
  split; [exact H|].
  apply (absent_field_is_rejected W m). left. exact H.
Defined.

Lemma empty_field_is_rejected_witness :
  let W := sample_world (Ok created) in
  let m : gmap string json :=
    list_to_map [("name", JStr "Ann"); ("email", JStr "ann@example.com");
                 ("time", JStr "")] in
  m !! "time" = Some (JStr "")
  /\ schedule_meeting W (Request (Ok (JObj m))) = (missing_fields, []).
Proof.
  intros W m.
  assert (H : m !! "time" = Some (JStr "")) by (vm_compute; reflexivity).
  split; [exact H|].
  apply (empty_field_is_rejected W m). right. right. exact H.
Defined.

Lemma duration_is_ignored_witness :
  let W := sample_world (Ok created) in
  let m : gmap string json :=
    list_to_map [("name", JStr "Ann"); ("email", JStr "ann@example.com");
                 ("time", JStr "2025-01-10 10:00"); ("timezone", JStr "UTC")] in
  (forall k : string, k <> "duration" -> <["duration" := JInt 45]> m !! k = m !! k)
  /\ schedule_meeting_tool W (Request (Ok (JObj (<["duration" := JInt 45]> m))))
     = schedule_meeting_tool W (Request (Ok (JObj m))).
Proof.
  intros W m.
  assert (H : forall k : string,
             k <> "duration" -> <["duration" := JInt 45]> m !! k = m !! k).
  { intros k Hk. apply lookup_insert_ne. congruence. }
  split; [exact H|].
  apply (duration_is_ignored W (<["duration" := JInt 45]> m) m H).
Defined.

Lemma naive_time_gets_a_zone_witness :
  let W := sample_world (Ok created) in
  let time_str := JStr "2025-01-10 10:00" in
  let parsed := mk_datetime 2025 1 10 10 0 0 None in
  date_parse W time_str = Ok parsed
  /\ tzinfo parsed = None
  /\ localize_offset America_New_York (wall parsed) = Ok (-18000)
  /\ exists dt utc,
       normalize_time W America_New_York time_str = Ok dt
       /\ astimezone W dt pytz_UTC = Ok utc
       /\ isoformat utc = "2025-01-10T15:00:00+00:00".
Proof.
  intros W time_str parsed.
  assert (Hp : date_parse W time_str = Ok parsed) by (vm_compute; reflexivity).
  assert (Ho : localize_offset America_New_York (wall parsed) = Ok (-18000))
    by (vm_compute; reflexivity).
  split; [exact Hp|]. split; [reflexivity|]. split; [exact Ho|].
  apply (proj1 (proj2 (proj2
           (naive_time_gets_a_zone W America_New_York time_str parsed Hp eq_refl)))).
  - reflexivity.
  - exact Ho.
Defined.

Lemma upstream_answer_decides_witness :
  let W := sample_world (Ok created) in
  let m : gmap string json :=
    list_to_map [("name", JStr "Ann"); ("email", JStr "ann@example.com");
                 ("time", JStr "2025-01-10 10:00");
                 ("timezone", JStr "America/New_York")] in
  let parsed_date := mk_datetime 2025 1 10 10 0 0 (Some (-18000)) in
  let utc_date := mk_datetime 2025 1 10 15 0 0 (Some 0) in
  validated_tool W m parsed_date
  /\ astimezone W parsed_date pytz_UTC = Ok utc_date
  /\ py_int W (CAL_EVENT_TYPE_ID W) = Ok 42
  /\ upstream_success created
  /\ (schedule_meeting_tool W (Request (Ok (JObj m)))).1.2 = 200.
Proof.
  intros W m parsed_date utc_date.
  assert (Hv : validated_tool W m parsed_date).
  { split; [vm_compute; reflexivity|].
    exists America_New_York, "Available".
    repeat split; vm_compute; reflexivity. }
  assert (Hu : astimezone W parsed_date pytz_UTC = Ok utc_date)
    by (vm_compute; reflexivity).
  assert (Hi : py_int W (CAL_EVENT_TYPE_ID W) = Ok 42) by (vm_compute; reflexivity).
  assert (Hs : upstream_success created).
  { split; [reflexivity|].
    exists {[ "status" := JStr "success"; "data" := JObj {[ "id" := JInt 7 ]} ]}.
    split; [reflexivity|]. vm_compute. reflexivity. }
  split; [exact Hv|]. split; [exact Hu|]. split; [exact Hi|]. split; [exact Hs|].
  apply (proj1 (proj1 (upstream_answer_decides W m created)
                  parsed_date utc_date 42 Hv Hu Hi eq_refl)).
  exact Hs.
Defined.

(** * Further properties of the two files *)

(** ** Zone conversion *)

(** The UTC time of a converted datetime is the one it was converted from,
    so a further conversion starts from the same place. *)
Lemma astimezone_of_converted W dt tz1 mid :
  astimezone W dt tz1 = Ok mid ->
  forall tz, astimezone W mid tz = astimezone W dt tz.
Proof.
  intros H tz. unfold astimezone, fromutc in *.
  destruct (match tzinfo dt with Some o => Ok o | None => _ end) as [my|];
    cbn in *; [|discriminate].
  destruct (shift (wall dt) (- my)) as [u|] eqn:Hu; cbn in *; [|discriminate].
  destruct (shift u (utcoffset_at tz1 u)) as [w|] eqn:Hw; cbn in *; [|discriminate].
  injection H as <-. cbn.
  apply shift_Ok in Hu as [Hur ->]. apply shift_Ok in Hw as [_ ->].
  rewrite shift_representable;
    replace (wall dt + - my * us_per_second
             + utcoffset_at tz1 (wall dt + - my * us_per_second) * us_per_second
             + - utcoffset_at tz1 (wall dt + - my * us_per_second) * us_per_second)
      with (wall dt + - my * us_per_second) by lia; [reflexivity|exact Hur].
Qed.

(** X1. Converting through an intermediate zone changes nothing: once
    [dt.astimezone(tz1)] has succeeded, converting its result to [tz2] is
    converting [dt] to [tz2]; in particular converting the result to [tz1]
    again gives it back.  This is why src/main.py may convert the parsed time
    to the caller's zone first and to UTC afterwards. *)
Theorem astimezone_through W dt tz1 tz2 mid :
  astimezone W dt tz1 = Ok mid ->
  astimezone W mid tz2 = astimezone W dt tz2
  /\ astimezone W mid tz1 = Ok mid.
Proof.
  intros H. split.
  - apply (astimezone_of_converted W dt tz1 mid H).
  - rewrite (astimezone_of_converted W dt tz1 mid H). exact H.
Qed.

(** X2. The availability check depends on the instant only: two aware
    datetimes that denote the same instant, whatever offsets they carry, get
    the same verdict, the same reason or the same exception. *)
Theorem is_available_slot_same_instant W dt1 o1 dt2 o2 timezone :
  tzinfo dt1 = Some o1 ->
  tzinfo dt2 = Some o2 ->
  utc_wall dt1 o1 = utc_wall dt2 o2 ->
  is_available_slot W dt1 timezone = is_available_slot W dt2 timezone.
Proof.
  intros H1 H2 Hu. unfold is_available_slot, astimezone.
  rewrite H1, H2. cbn.
  replace (shift (wall dt1) (- o1)) with (shift (wall dt2) (- o2)); [reflexivity|].
  unfold shift, utc_wall in *.
  replace (wall dt2 + - o2 * us_per_second) with (wall dt1 + - o1 * us_per_second)
    by lia.
  reflexivity.
Qed.

(** X3. A datetime that already shows the wall clock of the zone, with the
    offset the zone has at that instant, is judged on the weekday and the
    hour it shows. *)
Theorem is_available_slot_own_wall_clock W dt o timezone tz :
  tzinfo dt = Some o ->
  pytz_timezone W timezone = Ok tz ->
  utcoffset_at tz (utc_wall dt o) = o ->
  representable (utc_wall dt o) ->
  representable (wall dt) ->
  exists b reason,
    is_available_slot W dt timezone = Ok (b, reason)
    /\ (b = true <-> business_hours dt).
Proof.
  intros Ho Htz Hc Hu Hw.
  assert (Hl : local_time tz dt o = dt).
  { unfold local_time. rewrite Hc. destruct dt as [w t]. cbn in *. subst t.
    f_equal. unfold utc_wall. cbn. lia. }
  assert (Ha : astimezone W dt tz = Ok dt).
  { rewrite (astimezone_aware W dt o tz Ho Hu); rewrite Hl; [reflexivity|exact Hw]. }
  rewrite (is_available_slot_local W dt timezone tz dt Htz Ha).
  pose proof (weekday_range dt) as Hr. unfold business_hours.
  destruct (Z.leb_spec 5 (weekday dt)).
  { eexists _, _. split; [reflexivity|]. split; [discriminate|lia]. }
  destruct (Z.ltb_spec (hour dt) 9); simpl.
  { eexists _, _. split; [reflexivity|]. split; [discriminate|lia]. }
  destruct (Z.leb_spec 17 (hour dt)); simpl;
    eexists _, _; (split; [reflexivity|]); split;
    try discriminate; try lia; auto.
Qed.

(** ** Normalization *)

(** X4. A time string that carries its own offset keeps its instant in
    src/main.py: the normalized datetime carries the offset the declared
    zone has at that instant and converts to the same UTC datetime as the
    parse result.  src/app.py leaves such a parse result as it is. *)
Theorem normalize_time_keeps_instant W tz time_str parsed o dt :
  date_parse W time_str = Ok parsed ->
  tzinfo parsed = Some o ->
  normalize_time W tz time_str = Ok dt ->
  tzinfo dt = Some (utcoffset_at tz (utc_wall parsed o))
  /\ utc_wall dt (utcoffset_at tz (utc_wall parsed o)) = utc_wall parsed o
  /\ astimezone W dt pytz_UTC = astimezone W parsed pytz_UTC
  /\ normalize_time_app W time_str = Ok parsed.
Proof.
  intros Hp Ho Hn. unfold normalize_time in Hn. rewrite Hp in Hn. cbn in Hn.
  rewrite Ho in Hn.
  pose proof (astimezone_of_converted W parsed tz dt Hn pytz_UTC) as Hthrough.
  apply (astimezone_aware_inv W parsed o tz dt Ho) in Hn as (_ & _ & ->).
  split; [reflexivity|]. split; [|split].
  - unfold local_time, utc_wall. cbn. lia.
  - exact Hthrough.
  - unfold normalize_time_app, ensure_aware. rewrite Hp. cbn. rewrite Ho. reflexivity.
Qed.

(** X5. After normalization the time is never naive, in either file, and
    in src/app.py making a parse result aware cannot fail. *)
Theorem normalized_time_is_aware W time_str :
  (forall tz dt, normalize_time W tz time_str = Ok dt -> exists o, tzinfo dt = Some o)
  /\ (forall dt, normalize_time_app W time_str = Ok dt -> exists o, tzinfo dt = Some o)
  /\ (forall parsed, date_parse W time_str = Ok parsed ->
        exists dt, normalize_time_app W time_str = Ok dt /\ wall dt = wall parsed).
Proof.
  split; [|split].
  - intros tz dt. apply normalize_time_aware.
  - intros dt. unfold normalize_time_app, ensure_aware, localize.
    destruct (date_parse W time_str) as [p|]; cbn; [|discriminate].
    destruct (tzinfo p) as [o|] eqn:Hp; cbn; intros [= <-]; cbn; eauto.
  - intros parsed Hp. unfold normalize_time_app, ensure_aware, localize.
    rewrite Hp. cbn. destruct (tzinfo parsed); cbn; eauto.
Qed.

(** X6. In src/main.py the availability of a time string that carries its
    own offset is decided on the wall clock of the normalized datetime, the
    time the declared zone shows: converting it into that zone a second time,
    as [is_available_slot] does, changes nothing. *)
Theorem tool_checks_normalized_wall_clock W tz timezone time_str parsed o dt :
  date_parse W time_str = Ok parsed ->
  tzinfo parsed = Some o ->
  normalize_time W tz time_str = Ok dt ->
  pytz_timezone W timezone = Ok tz ->
  exists b reason,
    is_available_slot W dt timezone = Ok (b, reason)
    /\ (b = true <-> business_hours dt).
Proof.
  intros Hp Ho Hn Htz. unfold normalize_time in Hn. rewrite Hp in Hn. cbn in Hn.
  rewrite Ho in Hn.
  assert (Hidem : astimezone W dt tz = Ok dt).
  { rewrite (astimezone_of_converted W parsed tz dt Hn). exact Hn. }
  rewrite (is_available_slot_local W dt timezone tz dt Htz Hidem).
  pose proof (weekday_range dt) as Hr. unfold business_hours.
  destruct (Z.leb_spec 5 (weekday dt)).
  { eexists _, _. split; [reflexivity|]. split; [discriminate|lia]. }
  destruct (Z.ltb_spec (hour dt) 9); simpl.
  { eexists _, _. split; [reflexivity|]. split; [discriminate|lia]. }
  destruct (Z.leb_spec 17 (hour dt)); simpl;
    eexists _, _; (split; [reflexivity|]); split;
    try discriminate; try lia; auto.
Qed.

(** ** What every request gets *)

Lemma booking_outcome_tool_status iso_date res r :
  (booking_outcome_tool iso_date res []).1 = Ok r -> r.2 = 200 \/ r.2 = 500.
Proof.
  unfold booking_outcome_tool. run_io.
  destruct (res_json res) as [[]|]; try discriminate.
  destruct (negb (status_code res =? 201)); [intros [= <-]; auto|].
  destruct (negb (py_eq_str _ _)); intros [= <-]; auto.
Qed.

Lemma booking_outcome_status parsed_date res r :
  (booking_outcome parsed_date res []).1 = Ok r -> r.2 = 200 \/ r.2 = 500.
Proof.
  unfold booking_outcome. run_io.
  destruct (res_json res) as [[]|]; try discriminate.
  destruct (py_eq_str _ _).
  - rewrite print_booking_log.
    destruct (print_booking _ []) as [[] ?]; cbn; [intros [= <-]; auto|discriminate].
  - destruct (negb _); intros [= <-]; auto.
Qed.

Ltac early_answer :=
  solve [ unfold disciplined, at_most_one_booking_call; cbn [fst snd];
          repeat split; auto; try discriminate; try (intros _; discriminate) ].

(** X7. Whatever the request and whatever the collaborators do, each
    handler answers with HTTP 200, 400 or 500, makes at most one outbound
    call, always to the bookings URL with the configured headers, never
    calls the API for a request it answers with 400, and never answers 200
    without having called it. *)
Theorem handlers_are_disciplined W request :
  disciplined W (schedule_meeting_tool W request)
  /\ disciplined W (schedule_meeting W request).
Proof.
  split.
  - unfold schedule_meeting_tool, catch_all, schedule_meeting_tool_try. run_io.
    destruct (get_json request) as [data|]; [|early_answer].
    destruct data as [| | | | | |m]; try early_answer.
    destruct (_ || _); [early_answer|].
    destruct (pytz_timezone W _) as [tz|e].
    2:{ destruct (is_unknown_tz e); early_answer. }
    destruct (normalize_time W tz _) as [parsed_date|]; [|early_answer].
    destruct (is_available_slot W parsed_date _) as [[[] msg]|]; cbn [negb];
      try early_answer.
    destruct (astimezone W parsed_date pytz_UTC) as [utc_date|]; [|early_answer].
    destruct (py_int W _) as [id|]; [|early_answer].
    unfold post. cbn [app]. fold bookings_url.
    destruct (requests_post W _ _ _) as [res|].
    2:{ unfold disciplined, at_most_one_booking_call. cbn [fst snd].
        repeat split; eauto; discriminate. }
    rewrite booking_outcome_tool_log.
    pose proof (booking_outcome_tool_status (isoformat utc_date) res) as Hs.
    destruct (booking_outcome_tool _ _ []) as [[r|] ?]; cbn [fst snd] in *.
    + unfold disciplined, at_most_one_booking_call. cbn [fst snd].
      destruct (Hs r eq_refl) as [H|H]; rewrite H;
        repeat split; eauto; discriminate.
    + unfold disciplined, at_most_one_booking_call. cbn [fst snd].
      repeat split; eauto; discriminate.
  - unfold schedule_meeting, catch_all, schedule_meeting_try. run_io.
    destruct (get_json request) as [data|]; [|early_answer].
    destruct data as [| | | | | |m]; try early_answer.
    destruct (_ || _); [early_answer|].
    destruct (date_parse W _) as [parsed|]; [|early_answer].
    destruct (ensure_aware parsed) as [parsed_date|]; [|early_answer].
    destruct (is_available_slot W parsed_date _) as [[[] msg]|]; cbn [negb];
      try early_answer.
    destruct (py_int W _) as [id|]; [|early_answer].
    unfold post. cbn [app]. fold bookings_url.
    destruct (requests_post W _ _ _) as [res|].
    2:{ unfold disciplined, at_most_one_booking_call. cbn [fst snd].
        repeat split; eauto; discriminate. }
    rewrite booking_outcome_log.
    pose proof (booking_outcome_status parsed_date res) as Hs.
    destruct (booking_outcome _ _ []) as [[r|] ?]; cbn [fst snd] in *.
    + unfold disciplined, at_most_one_booking_call. cbn [fst snd].
      destruct (Hs r eq_refl) as [H|H]; rewrite H;
        repeat split; eauto; discriminate.
    + unfold disciplined, at_most_one_booking_call. cbn [fst snd].
      repeat split; eauto; discriminate.
Qed.

(** ** What is posted *)

Lemma booking_payload_fields iso_date event_type_id name email user_timezone :
  let payload := booking_payload iso_date event_type_id name email user_timezone in
  py_get payload "start" = Ok (JStr iso_date)
  /\ py_get payload "eventTypeId" = Ok (JInt event_type_id)
  /\ py_get payload "attendee" = Ok (attendee name email user_timezone).
Proof.
  unfold py_get, py_get_default, booking_payload, attendee. cbn zeta.
  split; [|split].
  - rewrite lookup_insert_eq. reflexivity.
  - rewrite lookup_insert_ne by discriminate. rewrite lookup_insert_eq. reflexivity.
  - rewrite lookup_insert_ne by discriminate.
    rewrite lookup_insert_ne by discriminate.
    rewrite lookup_singleton_eq. reflexivity.
Qed.

Lemma booking_headers_fields W :
  booking_headers W !! "Authorization"
    = Some ("Bearer " +:+ default "None" (CAL_API_KEY W))
  /\ booking_headers W !! "Content-Type" = Some "application/json"
  /\ booking_headers W !! "cal-api-version" = Some "2024-08-13".
Proof.
  unfold booking_headers. split; [|split].
  - rewrite lookup_insert_eq. reflexivity.
  - rewrite lookup_insert_ne by discriminate. rewrite lookup_insert_eq. reflexivity.
  - rewrite lookup_insert_ne by discriminate.
    rewrite lookup_insert_ne by discriminate.
    rewrite lookup_singleton_eq. reflexivity.
Qed.

(** X8. In src/main.py the [start] of a time string that carries its own
    offset is that instant in UTC, whatever zone the request declares: the
    declared zone reaches the API only in the attendee block. *)
Theorem tool_start_is_the_parsed_instant W (m : gmap string json)
  parsed o parsed_date utc_date event_type_id :
  validated_tool W m parsed_date ->
  date_parse W (field m "time") = Ok parsed ->
  tzinfo parsed = Some o ->
  astimezone W parsed_date pytz_UTC = Ok utc_date ->
  py_int W (CAL_EVENT_TYPE_ID W) = Ok event_type_id ->
  (schedule_meeting_tool W (Request (Ok (JObj m)))).2
  = [PostCall bookings_url
       (booking_payload (isoformat (Datetime (utc_wall parsed o) (Some 0)))
          event_type_id (field m "name") (field m "email") (timezone_tool m))
       (booking_headers W)].
Proof.
  intros Hv Hp Ho Hu Hi.
  rewrite (schedule_meeting_tool_run W m parsed_date utc_date event_type_id Hv Hu Hi).
  cbn [snd]. destruct Hv as (_ & tz & msg & _ & Hn & _).
  unfold normalize_time in Hn. rewrite Hp in Hn. cbn in Hn. rewrite Ho in Hn.
  rewrite (astimezone_of_converted W parsed tz parsed_date Hn) in Hu.
  destruct (astimezone_UTC W parsed o utc_date Ho Hu) as [_ ->]. reflexivity.
Qed.

(** X9. The one call a validated request causes carries the name, the email
    and the declared zone as the request gave them, the event type id read
    from the environment, and the three headers; with no API key in the
    environment the call is still made, with [Bearer None]. *)
Theorem posted_booking_is_verbatim W (m : gmap string json) :
  (forall parsed_date utc_date event_type_id,
     validated_tool W m parsed_date ->
     astimezone W parsed_date pytz_UTC = Ok utc_date ->
     py_int W (CAL_EVENT_TYPE_ID W) = Ok event_type_id ->
     exists payload headers,
       (schedule_meeting_tool W (Request (Ok (JObj m)))).2
         = [PostCall bookings_url payload headers]
       /\ py_get payload "eventTypeId" = Ok (JInt event_type_id)
       /\ py_get payload "attendee"
          = Ok (attendee (field m "name") (field m "email") (timezone_tool m))
       /\ headers !! "Content-Type" = Some "application/json"
       /\ headers !! "cal-api-version" = Some "2024-08-13"
       /\ (forall key, CAL_API_KEY W = Some key ->
             headers !! "Authorization" = Some ("Bearer " +:+ key))
       /\ (CAL_API_KEY W = None -> headers !! "Authorization" = Some "Bearer None"))
  /\ (forall parsed_date event_type_id,
     validated_app W m parsed_date ->
     py_int W (CAL_EVENT_TYPE_ID W) = Ok event_type_id ->
     exists payload headers,
       (schedule_meeting W (Request (Ok (JObj m)))).2
         = [PostCall bookings_url payload headers]
       /\ py_get payload "start" = Ok (JStr (isoformat parsed_date))
       /\ py_get payload "eventTypeId" = Ok (JInt event_type_id)
       /\ py_get payload "attendee"
          = Ok (attendee (field m "name") (field m "email") (timezone_app m))
       /\ headers !! "Content-Type" = Some "application/json"
       /\ headers !! "cal-api-version" = Some "2024-08-13"
       /\ (forall key, CAL_API_KEY W = Some key ->
             headers !! "Authorization" = Some ("Bearer " +:+ key))
       /\ (CAL_API_KEY W = None -> headers !! "Authorization" = Some "Bearer None")).
Proof.
  destruct (booking_headers_fields W) as (Ha & Hc & Hv).
  split.
  - intros parsed_date utc_date id Hval Hu Hi.
    rewrite (schedule_meeting_tool_run W m parsed_date utc_date id Hval Hu Hi).
    eexists _, _. split; [reflexivity|].
    destruct (booking_payload_fields (isoformat utc_date) id (field m "name")
                (field m "email") (timezone_tool m)) as (_ & He & Hat).
    repeat split; try assumption.
    + intros key Hk. rewrite Ha, Hk. reflexivity.
    + intros Hk. rewrite Ha, Hk. reflexivity.
  - intros parsed_date id Hval Hi.
    rewrite (schedule_meeting_run W m parsed_date id Hval Hi).
    eexists _, _. split; [reflexivity|].
    destruct (booking_payload_fields (isoformat parsed_date) id (field m "name")
                (field m "email") (timezone_app m)) as (Hs & He & Hat).
    repeat split; try assumption.
    + intros key Hk. rewrite Ha, Hk. reflexivity.
    + intros Hk. rewrite Ha, Hk. reflexivity.
Qed.

(** ** Requests that end in the outer [except] *)

(** X10. With no event type id in the environment a request that passes
    every check is answered HTTP 500, with the [TypeError] of [int(None)],
    and the API is not called, in both files. *)
Theorem unset_event_type_id_is_internal_error W (m : gmap string json) :
  CAL_EVENT_TYPE_ID W = None ->
  (forall parsed_date utc_date,
     validated_tool W m parsed_date ->
     astimezone W parsed_date pytz_UTC = Ok utc_date ->
     exists e, exc_type e = TypeError
               /\ schedule_meeting_tool W (Request (Ok (JObj m)))
                  = (internal_error e, []))
  /\ (forall parsed_date,
     validated_app W m parsed_date ->
     exists e, exc_type e = TypeError
               /\ schedule_meeting W (Request (Ok (JObj m))) = (internal_error e, [])).
Proof.
  intros Hid. split.
  - intros parsed_date utc_date (Hf & tz & msg & Htz & Hn & Ha) Hu.
    eexists. split; [|].
    2:{ unfold a_field_is_missing, field, timezone_tool in *.
        unfold schedule_meeting_tool, catch_all, schedule_meeting_tool_try.
        cbn [get_json]. run_io. rewrite Hf, Htz, Hn, Ha. cbn [negb].
        rewrite Hu. unfold py_int. rewrite Hid. reflexivity. }
    reflexivity.
  - intros parsed_date (Hf & parsed & msg & Hp & He & Ha).
    eexists. split; [|].
    2:{ unfold a_field_is_missing, field, timezone_app in *.
        unfold schedule_meeting, catch_all, schedule_meeting_try.
        cbn [get_json]. run_io. rewrite Hf, Hp, He, Ha. cbn [negb].
        unfold py_int. rewrite Hid. reflexivity. }
    reflexivity.
Qed.

(** X11. A body that is JSON but not an object (a list, a string, a number,
    [null]) is answered HTTP 500 with the [AttributeError] of its missing
    [get], and a body [get_json] rejects is answered HTTP 500 with that
    exception; neither reaches the API.  The missing-fields answer is for
    objects only. *)
Theorem body_that_is_no_object_is_internal_error W request :
  (forall v, get_json request = Ok v -> is_object v = false ->
     schedule_meeting_tool W request = (internal_error (no_attribute_get v), [])
     /\ schedule_meeting W request = (internal_error (no_attribute_get v), []))
  /\ (forall e, get_json request = Raise e ->
     schedule_meeting_tool W request = (internal_error e, [])
     /\ schedule_meeting W request = (internal_error e, [])).
Proof.
  split.
  - intros v Hv Hobj.
    unfold schedule_meeting_tool, schedule_meeting, catch_all,
      schedule_meeting_tool_try, schedule_meeting_try.
    run_io. rewrite Hv. destruct v; try discriminate; split; reflexivity.
  - intros e He.
    unfold schedule_meeting_tool, schedule_meeting, catch_all,
      schedule_meeting_tool_try, schedule_meeting_try.
    run_io. rewrite He. split; reflexivity.
Qed.

(** ** Rejections *)

(** X12. A time that cannot be normalized is answered HTTP 400 without a
    call to the API.  In src/main.py the answer carries the exception text,
    and anything the inner [try] raises counts, also a conversion that
    leaves the range of [datetime]; in src/app.py only the parser is inside
    the [try] and the answer has no details.  A string is echoed as given. *)
Theorem unparsable_time_is_rejected W (m : gmap string json) :
  a_field_is_missing m = false ->
  (forall tz e,
     pytz_timezone W (timezone_tool m) = Ok tz ->
     normalize_time W tz (field m "time") = Raise e ->
     schedule_meeting_tool W (Request (Ok (JObj m)))
       = (unparsable_time_tool W (field m "time") e, []))
  /\ (forall tz e,
     date_parse W (field m "time") = Raise e ->
     normalize_time W tz (field m "time") = Raise e)
  /\ (forall e,
     date_parse W (field m "time") = Raise e ->
     schedule_meeting W (Request (Ok (JObj m)))
       = (unparsable_time W (field m "time"), []))
  /\ (forall s e, field m "time" = JStr s ->
     unparsable_time W (field m "time")
       = (JObj {[ "error" := JStr ("Could not parse date: " +:+ s) ]}, 400)
     /\ unparsable_time_tool W (field m "time") e
       = (JObj {[ "error" := JStr ("Could not parse date: " +:+ s);
                  "details" := JStr (exc_str e) ]}, 400)).
Proof.
  intros Hf. split; [|split; [|split]].
  - intros tz e Htz Hn. apply (schedule_meeting_tool_unparsable W m tz e Hf Htz Hn).
  - intros tz e Hp. unfold normalize_time. rewrite Hp. reflexivity.
  - intros e Hp. unfold a_field_is_missing, field in *.
    unfold schedule_meeting, catch_all, schedule_meeting_try.
    cbn [get_json]. run_io. rewrite Hf, Hp. reflexivity.
  - intros s e Hs. unfold unparsable_time, unparsable_time_tool. rewrite Hs.
    split; reflexivity.
Qed.

(** X13. The order of the checks.  In src/main.py the zone is looked up
    before the time is parsed: an unknown zone is answered HTTP 400 and any
    other exception of the lookup HTTP 500, whatever the time string is.  In
    src/app.py the time is parsed first: an unparsable time is answered
    HTTP 400 even when the zone is unknown. *)
Theorem validation_order W (m : gmap string json) e :
  a_field_is_missing m = false ->
  (pytz_timezone W (timezone_tool m) = Raise e ->
     (is_unknown_tz e = true ->
        schedule_meeting_tool W (Request (Ok (JObj m)))
          = (invalid_timezone W (timezone_tool m), []))
     /\ (is_unknown_tz e = false ->
        schedule_meeting_tool W (Request (Ok (JObj m))) = (internal_error e, [])))
  /\ (pytz_timezone W (timezone_app m) = Raise e ->
      forall e', date_parse W (field m "time") = Raise e' ->
        schedule_meeting W (Request (Ok (JObj m)))
          = (unparsable_time W (field m "time"), [])).
Proof.
  intros Hf. split.
  - intros Htz. split; intros Hu.
    + apply (schedule_meeting_tool_invalid_timezone W m e Hf Htz Hu).
    + unfold a_field_is_missing, field, timezone_tool in *.
      unfold schedule_meeting_tool, catch_all, schedule_meeting_tool_try.
      cbn [get_json]. run_io. rewrite Hf, Htz, Hu. reflexivity.
  - intros _ e' Hp. unfold a_field_is_missing, field in *.
    unfold schedule_meeting, catch_all, schedule_meeting_try.
    cbn [get_json]. run_io. rewrite Hf, Hp. reflexivity.
Qed.

(** X14. In src/main.py a time string without zone information is judged
    on the weekday and the hour the caller wrote, provided the zone gives the
    instant the offset it attached: a Saturday or Sunday is refused naming
    the day, a weekday hour outside [9, 17) is refused naming the hour, both
    with HTTP 400 and no call to the API. *)
Theorem tool_judges_the_time_as_written W (m : gmap string json) tz parsed o :
  a_field_is_missing m = false ->
  pytz_timezone W (timezone_tool m) = Ok tz ->
  date_parse W (field m "time") = Ok parsed ->
  tzinfo parsed = None ->
  localize_offset tz (wall parsed) = Ok o ->
  utcoffset_at tz (wall parsed - o * us_per_second) = o ->
  representable (wall parsed) ->
  representable (wall parsed - o * us_per_second) ->
  let availability := "Monday-Friday, 9:00 AM - 5:00 PM in your timezone" in
  (5 <= weekday parsed ->
     schedule_meeting_tool W (Request (Ok (JObj m)))
       = (slot_unavailable ("Not available on " +:+ strftime_A parsed) availability, []))
  /\ (weekday parsed <= 4 -> hour parsed < 9 \/ 17 <= hour parsed ->
     schedule_meeting_tool W (Request (Ok (JObj m)))
       = (slot_unavailable
            ("Outside business hours (9 AM - 5 PM). Requested: "
             +:+ str_int (hour parsed) +:+ ":00") availability, [])).
Proof.
  intros Hf Htz Hp Hn Hl Hc Hw Hu availability.
  set (dt := Datetime (wall parsed) (Some o)).
  assert (Hnorm : normalize_time W tz (field m "time") = Ok dt).
  { unfold normalize_time. rewrite Hp. cbn. rewrite Hn.
    unfold localize. rewrite Hn, Hl. reflexivity. }
  assert (Hloc : local_time tz dt o = dt).
  { unfold local_time, utc_wall, dt. cbn. rewrite Hc. f_equal. lia. }
  assert (Ha : astimezone W dt tz = Ok dt).
  { rewrite (astimezone_aware W dt o tz eq_refl); rewrite ?Hloc;
      [reflexivity|exact Hu|exact Hw]. }
  pose proof (is_available_slot_local W dt (timezone_tool m) tz dt Htz Ha) as Hv.
  assert (Hwd : weekday dt = weekday parsed) by reflexivity.
  assert (Hh : hour dt = hour parsed) by reflexivity.
  assert (Hs : strftime_A dt = strftime_A parsed) by reflexivity.
  rewrite Hwd, Hh, Hs in Hv.
  split.
  - intros Hwe. destruct (Z.leb_spec 5 (weekday parsed)); [|lia].
    apply (schedule_meeting_tool_unavailable W m tz dt _ Hf Htz Hnorm Hv).
  - intros Hwk Hout. destruct (Z.leb_spec 5 (weekday parsed)); [lia|].
    assert (Hb : (hour parsed <? 9) || (17 <=? hour parsed) = true).
    { destruct (Z.ltb_spec (hour parsed) 9); [reflexivity|].
      destruct (Z.leb_spec 17 (hour parsed)); [reflexivity|lia]. }
    rewrite Hb in Hv.
    apply (schedule_meeting_tool_unavailable W m tz dt _ Hf Htz Hnorm Hv).
Qed.

(** X15. In src/app.py a time string without zone information is read as
    UTC and then judged in the declared zone, on the wall clock that zone
    shows at that UTC time; a refusal describes the window as UTC all the
    same. *)
Theorem app_judges_utc_time_in_declared_zone W (m : gmap string json) tz parsed :
  a_field_is_missing m = false ->
  date_parse W (field m "time") = Ok parsed ->
  tzinfo parsed = None ->
  pytz_timezone W (timezone_app m) = Ok tz ->
  representable (wall parsed) ->
  let loc := local_time tz (Datetime (wall parsed) (Some 0)) 0 in
  representable (wall loc) ->
  wall loc = wall parsed + utcoffset_at tz (wall parsed) * us_per_second
  /\ (5 <= weekday loc ->
      schedule_meeting W (Request (Ok (JObj m)))
        = (slot_unavailable ("Not available on " +:+ strftime_A loc)
             "Monday-Friday, 9:00 AM - 5:00 PM UTC", []))
  /\ (weekday loc <= 4 -> hour loc < 9 \/ 17 <= hour loc ->
      schedule_meeting W (Request (Ok (JObj m)))
        = (slot_unavailable
             ("Outside business hours (9 AM - 5 PM). Requested: "
              +:+ str_int (hour loc) +:+ ":00")
             "Monday-Friday, 9:00 AM - 5:00 PM UTC", [])).
Proof.
  intros Hf Hp Hn Htz Hw loc Hl.
  set (dt := Datetime (wall parsed) (Some 0)).
  assert (Hu : representable (utc_wall dt 0)).
  { unfold utc_wall, dt. cbn. replace (wall parsed - 0 * us_per_second)
      with (wall parsed) by lia. exact Hw. }
  pose proof (astimezone_aware W dt 0 tz eq_refl Hu Hl) as Ha. fold loc in Ha.
  pose proof (is_available_slot_local W dt (timezone_app m) tz loc Htz Ha) as Hv.
  assert (Hrun : forall msg,
    is_available_slot W dt (timezone_app m) = Ok (false, msg) ->
    schedule_meeting W (Request (Ok (JObj m)))
      = (slot_unavailable msg "Monday-Friday, 9:00 AM - 5:00 PM UTC", [])).
  { intros msg Hmsg. unfold a_field_is_missing, field, timezone_app in *.
    unfold schedule_meeting, catch_all, schedule_meeting_try.
    cbn [get_json]. run_io. rewrite Hf, Hp.
    unfold ensure_aware, localize. rewrite Hn. cbn. fold dt.
    rewrite Hmsg. reflexivity. }
  split; [|split].
  - assert (E : wall parsed - 0 * us_per_second = wall parsed) by lia.
    unfold loc, local_time, utc_wall, dt. cbn [wall]. rewrite E. reflexivity.
  - intros Hwe. destruct (Z.leb_spec 5 (weekday loc)); [|lia]. apply Hrun, Hv.
  - intros Hwk Hout. destruct (Z.leb_spec 5 (weekday loc)); [lia|].
    assert (Hb : (hour loc <? 9) || (17 <=? hour loc) = true).
    { destruct (Z.ltb_spec (hour loc) 9); [reflexivity|].
      destruct (Z.leb_spec 17 (hour loc)); [reflexivity|lia]. }
    rewrite Hb in Hv. apply Hrun, Hv.
Qed.

(** ** After the outbound call *)

Lemma tool_posts_run W (m : gmap string json) iso_date payload :
  tool_posts W m iso_date payload ->
  schedule_meeting_tool W (Request (Ok (JObj m)))
  = (answer_after (booking_outcome_tool iso_date)
       (requests_post W bookings_url payload (booking_headers W)),
     [PostCall bookings_url payload (booking_headers W)]).
Proof.
  intros (parsed_date & utc_date & id & Hv & Hu & Hi & -> & ->).
  apply (schedule_meeting_tool_run W m parsed_date utc_date id Hv Hu Hi).
Qed.

Lemma app_posts_run W (m : gmap string json) parsed_date payload :
  app_posts W m parsed_date payload ->
  schedule_meeting W (Request (Ok (JObj m)))
  = (answer_after (booking_outcome parsed_date)
       (requests_post W bookings_url payload (booking_headers W)),
     [PostCall bookings_url payload (booking_headers W)]).
Proof.
  intros (id & Hv & Hi & ->).
  apply (schedule_meeting_run W m parsed_date id Hv Hi).
Qed.

(** X16. When [requests.post] itself raises (no connection, a timeout),
    both handlers answer HTTP 500 with that exception; the call is on
    record and nothing is tried again. *)
Theorem failed_call_is_internal_error W (m : gmap string json) e :
  (forall iso_date payload,
     tool_posts W m iso_date payload ->
     requests_post W bookings_url payload (booking_headers W) = Raise e ->
     schedule_meeting_tool W (Request (Ok (JObj m)))
       = (internal_error e, [PostCall bookings_url payload (booking_headers W)]))
  /\ (forall parsed_date payload,
     app_posts W m parsed_date payload ->
     requests_post W bookings_url payload (booking_headers W) = Raise e ->
     schedule_meeting W (Request (Ok (JObj m)))
       = (internal_error e, [PostCall bookings_url payload (booking_headers W)])).
Proof.
  split.
  - intros iso payload Hp Hr. rewrite (tool_posts_run W m iso payload Hp), Hr.
    reflexivity.
  - intros parsed_date payload Hp Hr.
    rewrite (app_posts_run W m parsed_date payload Hp), Hr. reflexivity.
Qed.

(** X17. An answer of the API whose body is not JSON, or is JSON but not
    an object, ends in the outer [except] of both handlers: HTTP 500 with the
    exception of [res.json()] or the [AttributeError] of the missing [get],
    whatever the upstream status, 201 included. *)
Theorem upstream_body_must_be_an_object W (m : gmap string json) res :
  (forall iso_date payload,
     tool_posts W m iso_date payload ->
     requests_post W bookings_url payload (booking_headers W) = Ok res ->
     (forall e, res_json res = Raise e ->
        (schedule_meeting_tool W (Request (Ok (JObj m)))).1 = internal_error e)
     /\ (forall v, res_json res = Ok v -> is_object v = false ->
        (schedule_meeting_tool W (Request (Ok (JObj m)))).1
          = internal_error (no_attribute_get v)))
  /\ (forall parsed_date payload,
     app_posts W m parsed_date payload ->
     requests_post W bookings_url payload (booking_headers W) = Ok res ->
     (forall e, res_json res = Raise e ->
        (schedule_meeting W (Request (Ok (JObj m)))).1 = internal_error e)
     /\ (forall v, res_json res = Ok v -> is_object v = false ->
        (schedule_meeting W (Request (Ok (JObj m)))).1
          = internal_error (no_attribute_get v))).
Proof.
  split.
  - intros iso payload Hp Hr. rewrite (tool_posts_run W m iso payload Hp), Hr.
    cbn [fst]. unfold answer_after, catch_all, booking_outcome_tool. run_io.
    split.
    + intros e ->. reflexivity.
    + intros v -> Hv. destruct v; try discriminate; reflexivity.
  - intros parsed_date payload Hp Hr.
    rewrite (app_posts_run W m parsed_date payload Hp), Hr.
    cbn [fst]. unfold answer_after, catch_all, booking_outcome. run_io.
    split.
    + intros e ->. reflexivity.
    + intros v -> Hv. destruct v; try discriminate; reflexivity.
Qed.

(** X18. In src/app.py the report printed for an accepted booking decides
    the answer: when the body's [data] is present but not an object ([null],
    say), or its [bookingFieldsResponses] is, the handler answers HTTP 500
    although the API has accepted the booking; when [data] is absent, or an
    object whose [bookingFieldsResponses] is absent or an object, it answers
    the success with the whole body. *)
Theorem app_report_decides_the_answer W (m : gmap string json)
  parsed_date payload res (b : gmap string json) :
  app_posts W m parsed_date payload ->
  requests_post W bookings_url payload (booking_headers W) = Ok res ->
  res_json res = Ok (JObj b) ->
  b !! "status" = Some (JStr "success") ->
  let data := default (JObj ∅) (b !! "data") in
  let answer := (schedule_meeting W (Request (Ok (JObj m)))).1 in
  (is_object data = false -> answer = internal_error (no_attribute_get data))
  /\ (forall d : gmap string json, data = JObj d ->
      let fields := default (JObj ∅) (d !! "bookingFieldsResponses") in
      (is_object fields = false -> answer = internal_error (no_attribute_get fields))
      /\ (is_object fields = true ->
          answer = scheduled (str_datetime parsed_date) (JObj b))).
Proof.
  intros Hp Hr Hj Hs data answer. unfold answer.
  rewrite (app_posts_run W m parsed_date payload Hp), Hr. cbn [fst].
  unfold answer_after, catch_all, booking_outcome. run_io. rewrite Hj.
  rewrite (proj2 (status_is_success b) Hs).
  unfold print_booking. run_io. fold data.
  split.
  - intros Hd. destruct data; try discriminate; reflexivity.
  - intros d ->. cbn zeta. split.
    + intros Hf. destruct (default _ _); try discriminate; reflexivity.
    + intros Hf. destruct (default _ _); try discriminate; reflexivity.
Qed.

(** ** The discovery documents against the handler *)

Lemma absent_required_field (m : gmap string json) k :
  In k ["name"; "email"; "time"] -> m !! k = None -> a_field_is_missing m = true.
Proof.
  intros Hk Hm. unfold a_field_is_missing, field.
  destruct Hk as [<- | [<- | [<- | []]]]; rewrite Hm; cbn [default truthy negb];
    rewrite ?orb_true_r; reflexivity.
Qed.

Lemma mcp_root_schema : tool_schema mcp_root "parameters" = Ok mcp_parameters.
Proof. vm_compute. reflexivity. Qed.

Lemma list_tools_schema : tool_schema list_tools "input_schema" = Ok tools_input_schema.
Proof. vm_compute. reflexivity. Qed.

Lemma mcp_defaults k d :
  advertised_default mcp_parameters k = Some d ->
  (k = "timezone" /\ d = JStr "Europe/Amsterdam") \/ (k = "duration" /\ d = JInt 30).
Proof.
  unfold advertised_default, py_get, py_get_default, mcp_parameters.
  rewrite lookup_insert_ne by done. rewrite lookup_insert_eq. cbn [default from_option id].
  destruct (mcp_properties !! k) as [v|] eqn:Hk; [|cbn; discriminate].
  apply elem_of_map_to_list in Hk.
  set (l := map_to_list mcp_properties) in Hk. vm_compute in l. subst l.
  repeat (apply elem_of_cons in Hk as [Hk|Hk];
          [injection Hk as -> ->; vm_compute; intros H;
           first [discriminate | injection H as <-; auto]|]).
  apply elem_of_nil in Hk. contradiction.
Qed.

Lemma list_tools_defaults k : advertised_default tools_input_schema k = None.
Proof.
  unfold advertised_default, py_get, py_get_default, tools_input_schema.
  rewrite lookup_insert_ne by done. rewrite lookup_insert_eq. cbn [default from_option id].
  destruct (tools_properties !! k) as [v|] eqn:Hk; [|reflexivity].
  apply elem_of_map_to_list in Hk.
  set (l := map_to_list tools_properties) in Hk. vm_compute in l. subst l.
  repeat (apply elem_of_cons in Hk as [Hk|Hk];
          [injection Hk as -> ->; vm_compute; reflexivity|]).
  apply elem_of_nil in Hk. contradiction.
Qed.

(** X19. What [GET /] and [GET /tools] advertise is what
    [schedule_meeting_tool] does: a body without a field either document
    lists as required is answered with the missing-fields error, and a body
    without a field for which [GET /] gives a default ([timezone],
    [duration]) is handled exactly like the body with that default filled
    in.  [GET /tools] gives no defaults. *)
Theorem discovery_documents_match_the_handler W (m : gmap string json) schema :
  tool_schema mcp_root "parameters" = Ok schema
  \/ tool_schema list_tools "input_schema" = Ok schema ->
  (forall k, In k (required_fields schema) -> m !! k = None ->
     schedule_meeting_tool W (Request (Ok (JObj m))) = (missing_fields, []))
  /\ (forall k d, advertised_default schema k = Some d -> m !! k = None ->
     schedule_meeting_tool W (Request (Ok (JObj (<[k := d]> m))))
       = schedule_meeting_tool W (Request (Ok (JObj m))))
  /\ (tool_schema list_tools "input_schema" = Ok schema ->
      forall k, advertised_default schema k = None).
Proof.
  intros Hs.
  assert (Hreq : required_fields schema = ["name"; "email"; "time"]).
  { destruct Hs as [Hs | Hs];
      [rewrite mcp_root_schema in Hs | rewrite list_tools_schema in Hs];
      injection Hs as <-; vm_compute; reflexivity. }
  assert (Hdef : forall k d, advertised_default schema k = Some d ->
            (k = "timezone" /\ d = JStr "Europe/Amsterdam")
            \/ (k = "duration" /\ d = JInt 30)).
  { intros k d.
    destruct Hs as [Hs | Hs];
      [rewrite mcp_root_schema in Hs | rewrite list_tools_schema in Hs];
      injection Hs as <-.
    - apply mcp_defaults.
    - rewrite list_tools_defaults. discriminate. }
  split; [|split].
  - intros k Hk Hm. rewrite Hreq in Hk.
    apply schedule_meeting_tool_missing, (absent_required_field m k Hk Hm).
  - intros k d Hd Hm.
    unfold schedule_meeting_tool, catch_all, schedule_meeting_tool_try.
    cbn [get_json]. run_io.
    destruct (Hdef k d Hd) as [[-> ->] | [-> ->]].
    + rewrite lookup_insert_eq, !lookup_insert_ne by discriminate.
      rewrite Hm. reflexivity.
    + rewrite !lookup_insert_ne by discriminate. reflexivity.
  - intros Hl k. rewrite list_tools_schema in Hl. injection Hl as <-.
    apply list_tools_defaults.
Qed.

(** ** The two files side by side *)

(** X20. For a time string without zone information and a declared zone
    that is UTC, src/main.py and src/app.py cause the same outbound calls:
    the same payload, with the same [start], or none at all. *)
Theorem handlers_agree_on_utc W (m : gmap string json) tzv parsed :
  m !! "timezone" = Some tzv ->
  pytz_timezone W tzv = Ok pytz_UTC ->
  date_parse W (field m "time") = Ok parsed ->
  tzinfo parsed = None ->
  representable (wall parsed) ->
  (schedule_meeting_tool W (Request (Ok (JObj m)))).2
  = (schedule_meeting W (Request (Ok (JObj m)))).2.
Proof.
  intros Hz Htz Hp Hn Hw. unfold field in Hp.
  set (dt := Datetime (wall parsed) (Some 0)).
  assert (Hnorm : normalize_time W pytz_UTC (default JNull (m !! "time")) = Ok dt).
  { unfold normalize_time. rewrite Hp. cbn. rewrite Hn.
    unfold localize. rewrite Hn. reflexivity. }
  assert (Hutc : astimezone W dt pytz_UTC = Ok dt).
  { assert (E : utc_wall dt 0 = wall parsed) by (unfold utc_wall, dt; cbn; lia).
    rewrite (astimezone_UTC_representable W dt 0 eq_refl); rewrite E;
      [reflexivity|exact Hw]. }
  unfold schedule_meeting_tool, schedule_meeting, catch_all,
    schedule_meeting_tool_try, schedule_meeting_try.
  cbn [get_json]. run_io. rewrite Hz. cbn [default from_option id].
  destruct (_ || _); [reflexivity|].
  rewrite Htz, Hnorm, Hp. unfold ensure_aware, localize. rewrite Hn.
  cbn [localize_offset pytz_UTC]. run_io. fold dt.
  destruct (is_available_slot W dt tzv) as [[[] msg]|]; cbn [negb];
    try reflexivity.
  rewrite Hutc.
  destruct (py_int W _) as [id|]; [|reflexivity].
  unfold post. cbn [app].
  destruct (requests_post W _ _ _) as [res|]; [|reflexivity].
  rewrite booking_outcome_tool_log, booking_outcome_log.
  destruct (booking_outcome_tool _ _ []) as [[] ?];
    destruct (booking_outcome _ _ []) as [[] ?]; reflexivity.
Qed.

(** ** The further properties at concrete inputs *)

Lemma ann_tool_posts r :
  tool_posts (sample_world r) (ann_body "2025-01-10 10:00" "America/New_York")
    "2025-01-10T15:00:00+00:00"
    (booking_payload "2025-01-10T15:00:00+00:00" 42 (JStr "Ann")
       (JStr "ann@example.com") (JStr "America/New_York")).
Proof.
  exists (mk_datetime 2025 1 10 10 0 0 (Some (-18000))),
         (mk_datetime 2025 1 10 15 0 0 (Some 0)), 42.
  split.
  { split; [vm_compute; reflexivity|].
    exists America_New_York, "Available". repeat split; vm_compute; reflexivity. }
  repeat split; vm_compute; reflexivity.
Qed.

Lemma ann_app_posts r :
  app_posts (sample_world r) (ann_body "2025-01-10 10:00" "UTC")
    (mk_datetime 2025 1 10 10 0 0 (Some 0))
    (booking_payload "2025-01-10T10:00:00+00:00" 42 (JStr "Ann")
       (JStr "ann@example.com") (JStr "UTC")).
Proof.
  exists 42. split.
  { split; [vm_compute; reflexivity|].
    exists (mk_datetime 2025 1 10 10 0 0 None), "Available".
    repeat split; vm_compute; reflexivity. }
  split; vm_compute; reflexivity.
Qed.

Lemma astimezone_through_witness :
  let W := sample_world (Ok created) in
  let dt := mk_datetime 2025 7 10 12 0 0 (Some 7200) in
  let mid := mk_datetime 2025 7 10 6 0 0 (Some (-14400)) in
  astimezone W dt America_New_York = Ok mid
  /\ astimezone W mid pytz_UTC = astimezone W dt pytz_UTC
  /\ astimezone W mid America_New_York = Ok mid.
Proof.
  intros W dt mid.
  assert (H : astimezone W dt America_New_York = Ok mid) by (vm_compute; reflexivity).
  split; [exact H|].
  apply (astimezone_through W dt America_New_York pytz_UTC mid H).
Defined.

Lemma is_available_slot_same_instant_witness :
  let W := sample_world (Ok created) in
  let dt1 := mk_datetime 2025 1 10 12 0 0 (Some 7200) in
  let dt2 := mk_datetime 2025 1 10 10 0 0 (Some 0) in
  utc_wall dt1 7200 = utc_wall dt2 0
  /\ is_available_slot W dt1 (JStr "Europe/Amsterdam")
     = is_available_slot W dt2 (JStr "Europe/Amsterdam").
Proof.
  intros W dt1 dt2.
  assert (H : utc_wall dt1 7200 = utc_wall dt2 0) by (vm_compute; reflexivity).
  split; [exact H|].
  apply (is_available_slot_same_instant W dt1 7200 dt2 0 _ eq_refl eq_refl H).
Defined.

Lemma is_available_slot_own_wall_clock_witness :
  let W := sample_world (Ok created) in
  let dt := mk_datetime 2025 1 10 10 0 0 (Some (-18000)) in
  utcoffset_at America_New_York (utc_wall dt (-18000)) = -18000
  /\ exists b reason,
       is_available_slot W dt (JStr "America/New_York") = Ok (b, reason)
       /\ (b = true <-> business_hours dt).
Proof.
  intros W dt.
  assert (Hc : utcoffset_at America_New_York (utc_wall dt (-18000)) = -18000)
    by (vm_compute; reflexivity).
  split; [exact Hc|].
  apply (is_available_slot_own_wall_clock W dt (-18000) (JStr "America/New_York")
           America_New_York eq_refl eq_refl Hc);
    (vm_compute; split; [discriminate|reflexivity]).
Defined.

Lemma normalize_time_keeps_instant_witness :
  let W := sample_world (Ok created) in
  let time_str := JStr "2025-01-10T12:00:00+02:00" in
  let parsed := mk_datetime 2025 1 10 12 0 0 (Some 7200) in
  let dt := mk_datetime 2025 1 10 5 0 0 (Some (-18000)) in
  date_parse W time_str = Ok parsed
  /\ normalize_time W America_New_York time_str = Ok dt
  /\ astimezone W dt pytz_UTC = astimezone W parsed pytz_UTC.
Proof.
  intros W time_str parsed dt.
  assert (Hp : date_parse W time_str = Ok parsed) by (vm_compute; reflexivity).
  assert (Hn : normalize_time W America_New_York time_str = Ok dt)
    by (vm_compute; reflexivity).
  split; [exact Hp|]. split; [exact Hn|].
  apply (normalize_time_keeps_instant W America_New_York time_str parsed 7200 dt
           Hp eq_refl Hn).
Defined.

Lemma normalized_time_is_aware_witness :
  let W := sample_world (Ok created) in
  let time_str := JStr "2025-01-10 10:00" in
  normalize_time W America_New_York time_str
    = Ok (mk_datetime 2025 1 10 10 0 0 (Some (-18000)))
  /\ exists o, tzinfo (mk_datetime 2025 1 10 10 0 0 (Some (-18000))) = Some o.
Proof.
  intros W time_str.
  assert (Hn : normalize_time W America_New_York time_str
               = Ok (mk_datetime 2025 1 10 10 0 0 (Some (-18000))))
    by (vm_compute; reflexivity).
  split; [exact Hn|].
  apply (proj1 (normalized_time_is_aware W time_str) America_New_York _ Hn).
Defined.

Lemma tool_checks_normalized_wall_clock_witness :
  let W := sample_world (Ok created) in
  let time_str := JStr "2025-01-10T12:00:00+02:00" in
  let dt := mk_datetime 2025 1 10 5 0 0 (Some (-18000)) in
  normalize_time W America_New_York time_str = Ok dt
  /\ exists b reason,
       is_available_slot W dt (JStr "America/New_York") = Ok (b, reason)
       /\ (b = true <-> business_hours dt).
Proof.
  intros W time_str dt.
  assert (Hp : date_parse W time_str = Ok (mk_datetime 2025 1 10 12 0 0 (Some 7200)))
    by (vm_compute; reflexivity).
  assert (Hn : normalize_time W America_New_York time_str = Ok dt)
    by (vm_compute; reflexivity).
  split; [exact Hn|].
  apply (tool_checks_normalized_wall_clock W America_New_York
           (JStr "America/New_York") time_str _ 7200 dt Hp eq_refl Hn eq_refl).
Defined.

Lemma handlers_are_disciplined_witness :
  disciplined (sample_world (Ok error_200))
    (schedule_meeting_tool (sample_world (Ok error_200))
       (ann_request "2025-01-10 10:00" "America/New_York")).
Proof.
  apply (proj1 (handlers_are_disciplined (sample_world (Ok error_200))
                  (ann_request "2025-01-10 10:00" "America/New_York"))).
Defined.

Lemma tool_start_is_the_parsed_instant_witness :
  let W := sample_world (Ok created) in
  let m := ann_body "2025-01-10T17:00:00+02:00" "America/New_York" in
  let parsed := mk_datetime 2025 1 10 17 0 0 (Some 7200) in
  let parsed_date := mk_datetime 2025 1 10 10 0 0 (Some (-18000)) in
  validated_tool W m parsed_date
  /\ date_parse W (field m "time") = Ok parsed
  /\ map (fun c => py_get (post_json c) "start")
       (schedule_meeting_tool W (Request (Ok (JObj m)))).2
     = [Ok (JStr "2025-01-10T15:00:00+00:00")].
Proof.
  intros W m parsed parsed_date.
  assert (Hv : validated_tool W m parsed_date).
  { split; [vm_compute; reflexivity|].
    exists America_New_York, "Available". repeat split; vm_compute; reflexivity. }
  assert (Hp : date_parse W (field m "time") = Ok parsed) by (vm_compute; reflexivity).
  assert (Hu : astimezone W parsed_date pytz_UTC
               = Ok (mk_datetime 2025 1 10 15 0 0 (Some 0)))
    by (vm_compute; reflexivity).
  assert (Hi : py_int W (CAL_EVENT_TYPE_ID W) = Ok 42) by (vm_compute; reflexivity).
  split; [exact Hv|]. split; [exact Hp|].
  rewrite (tool_start_is_the_parsed_instant W m parsed 7200 parsed_date _ 42
             Hv Hp eq_refl Hu Hi).
  vm_compute. reflexivity.
Defined.

Lemma posted_booking_is_verbatim_witness :
  let W := sample_world_with (Ok created) None (Some "42") in
  let m := ann_body "2025-01-10 10:00" "UTC" in
  CAL_API_KEY W = None
  /\ exists payload headers,
       (schedule_meeting W (Request (Ok (JObj m)))).2
         = [PostCall bookings_url payload headers]
       /\ py_get payload "attendee"
          = Ok (attendee (JStr "Ann") (JStr "ann@example.com") (JStr "UTC"))
       /\ headers !! "Authorization" = Some "Bearer None".
Proof.
  intros W m. split; [reflexivity|].
  assert (Hv : validated_app W m (mk_datetime 2025 1 10 10 0 0 (Some 0))).
  { split; [vm_compute; reflexivity|].
    exists (mk_datetime 2025 1 10 10 0 0 None), "Available".
    repeat split; vm_compute; reflexivity. }
  assert (Hi : py_int W (CAL_EVENT_TYPE_ID W) = Ok 42) by (vm_compute; reflexivity).
  destruct (proj2 (posted_booking_is_verbatim W m) _ 42 Hv Hi)
    as (payload & headers & Hlog & _ & _ & Hat & _ & _ & _ & Hnone).
  exists payload, headers. split; [exact Hlog|]. split; [exact Hat|].
  apply Hnone. reflexivity.
Defined.

Lemma unset_event_type_id_is_internal_error_witness :
  let W := sample_world_with (Ok created) (Some "cal_live_key") None in
  let m := ann_body "2025-01-10 10:00" "UTC" in
  CAL_EVENT_TYPE_ID W = None
  /\ validated_app W m (mk_datetime 2025 1 10 10 0 0 (Some 0))
  /\ exists e, exc_type e = TypeError
               /\ schedule_meeting W (Request (Ok (JObj m))) = (internal_error e, []).
Proof.
  intros W m.
  assert (Hv : validated_app W m (mk_datetime 2025 1 10 10 0 0 (Some 0))).
  { split; [vm_compute; reflexivity|].
    exists (mk_datetime 2025 1 10 10 0 0 None), "Available".
    repeat split; vm_compute; reflexivity. }
  split; [reflexivity|]. split; [exact Hv|].
  apply (proj2 (unset_event_type_id_is_internal_error W m eq_refl) _ Hv).
Defined.

Lemma body_that_is_no_object_is_internal_error_witness :
  let W := sample_world (Ok created) in
  let request := Request (Ok (JList [JStr "Ann"])) in
  is_object (JList [JStr "Ann"]) = false
  /\ schedule_meeting_tool W request
     = (internal_error (Exc AttributeError "'list' object has no attribute 'get'"), []).
Proof.
  intros W request. split; [reflexivity|].
  apply (proj1 (proj1 (body_that_is_no_object_is_internal_error W request)
                  (JList [JStr "Ann"]) eq_refl eq_refl)).
Defined.

Lemma unparsable_time_is_rejected_witness :
  let W := sample_world (Ok created) in
  let m := ann_body "whenever" "America/New_York" in
  a_field_is_missing m = false
  /\ date_parse W (field m "time")
     = Raise (Exc OtherException "Unknown string format: whenever")
  /\ schedule_meeting W (Request (Ok (JObj m)))
     = (unparsable_time W (field m "time"), []).
Proof.
  intros W m.
  assert (Hf : a_field_is_missing m = false) by (vm_compute; reflexivity).
  assert (Hp : date_parse W (field m "time")
               = Raise (Exc OtherException "Unknown string format: whenever"))
    by (vm_compute; reflexivity).
  split; [exact Hf|]. split; [exact Hp|].
  apply (proj1 (proj2 (proj2 (unparsable_time_is_rejected W m Hf))) _ Hp).
Defined.

Lemma validation_order_witness :
  let W := sample_world (Ok created) in
  let m := ann_body "whenever" "Mars/Phobos" in
  let e := Exc UnknownTimeZoneError "'Mars/Phobos'" in
  a_field_is_missing m = false
  /\ pytz_timezone W (timezone_tool m) = Raise e
  /\ schedule_meeting_tool W (Request (Ok (JObj m)))
     = (invalid_timezone W (timezone_tool m), [])
  /\ schedule_meeting W (Request (Ok (JObj m)))
     = (unparsable_time W (field m "time"), []).
Proof.
  intros W m e.
  assert (Hf : a_field_is_missing m = false) by (vm_compute; reflexivity).
  assert (Htz : pytz_timezone W (timezone_tool m) = Raise e)
    by (vm_compute; reflexivity).
  assert (Hta : pytz_timezone W (timezone_app m) = Raise e)
    by (vm_compute; reflexivity).
  split; [exact Hf|]. split; [exact Htz|]. split.
  - apply (proj1 (proj1 (validation_order W m e Hf) Htz) eq_refl).
  - apply (proj2 (validation_order W m e Hf) Hta
             (Exc OtherException "Unknown string format: whenever")).
    vm_compute. reflexivity.
Defined.

Lemma tool_judges_the_time_as_written_witness :
  let W := sample_world (Ok created) in
  let m := ann_body "2025-01-11 10:00" "America/New_York" in
  let parsed := mk_datetime 2025 1 11 10 0 0 None in
  date_parse W (field m "time") = Ok parsed
  /\ localize_offset America_New_York (wall parsed) = Ok (-18000)
  /\ 5 <= weekday parsed
  /\ schedule_meeting_tool W (Request (Ok (JObj m)))
     = (slot_unavailable "Not available on Saturday"
          "Monday-Friday, 9:00 AM - 5:00 PM in your timezone", []).
Proof.
  intros W m parsed.
  assert (Hf : a_field_is_missing m = false) by (vm_compute; reflexivity).
  assert (Htz : pytz_timezone W (timezone_tool m) = Ok America_New_York)
    by reflexivity.
  assert (Hp : date_parse W (field m "time") = Ok parsed) by (vm_compute; reflexivity).
  assert (Hl : localize_offset America_New_York (wall parsed) = Ok (-18000))
    by (vm_compute; reflexivity).
  assert (Hc : utcoffset_at America_New_York (wall parsed - -18000 * us_per_second)
               = -18000) by (vm_compute; reflexivity).
  assert (Hw : representable (wall parsed))
    by (vm_compute; split; [discriminate|reflexivity]).
  assert (Hu : representable (wall parsed - -18000 * us_per_second))
    by (vm_compute; split; [discriminate|reflexivity]).
  assert (Hwe : 5 <= weekday parsed) by (vm_compute; discriminate).
  split; [exact Hp|]. split; [exact Hl|]. split; [exact Hwe|].
  apply (proj1 (tool_judges_the_time_as_written W m America_New_York parsed (-18000)
                  Hf Htz Hp eq_refl Hl Hc Hw Hu) Hwe).
Defined.

Lemma app_judges_utc_time_in_declared_zone_witness :
  let W := sample_world (Ok created) in
  let m := ann_body "2025-01-10 10:00" "America/New_York" in
  let parsed := mk_datetime 2025 1 10 10 0 0 None in
  let loc := local_time America_New_York (Datetime (wall parsed) (Some 0)) 0 in
  date_parse W (field m "time") = Ok parsed
  /\ hour loc = 5
  /\ schedule_meeting W (Request (Ok (JObj m)))
     = (slot_unavailable
          ("Outside business hours (9 AM - 5 PM). Requested: "
           +:+ str_int (hour loc) +:+ ":00")
          "Monday-Friday, 9:00 AM - 5:00 PM UTC", []).
Proof.
  intros W m parsed loc.
  assert (Hf : a_field_is_missing m = false) by (vm_compute; reflexivity).
  assert (Htz : pytz_timezone W (timezone_app m) = Ok America_New_York)
    by reflexivity.
  assert (Hp : date_parse W (field m "time") = Ok parsed) by (vm_compute; reflexivity).
  assert (Hw : representable (wall parsed))
    by (vm_compute; split; [discriminate|reflexivity]).
  assert (Hl : representable (wall loc))
    by (vm_compute; split; [discriminate|reflexivity]).
  assert (Hh : hour loc = 5) by (vm_compute; reflexivity).
  split; [exact Hp|]. split; [exact Hh|].
  apply (proj2 (proj2 (app_judges_utc_time_in_declared_zone W m America_New_York
                         parsed Hf Hp eq_refl Htz Hw Hl))).
  - vm_compute. discriminate.
  - left. change (hour loc < 9). rewrite Hh. lia.
Defined.

Lemma failed_call_is_internal_error_witness :
  let e := Exc OtherException "Connection refused" in
  let W := sample_world (Raise e) in
  let m := ann_body "2025-01-10 10:00" "America/New_York" in
  (schedule_meeting_tool W (Request (Ok (JObj m)))).1 = internal_error e
  /\ length (schedule_meeting_tool W (Request (Ok (JObj m)))).2 = 1%nat.
Proof.
  intros e W m.
  rewrite (proj1 (failed_call_is_internal_error W m e) _ _
             (ann_tool_posts (Raise e)) eq_refl).
  split; reflexivity.
Defined.

Lemma upstream_body_must_be_an_object_witness :
  let W := sample_world (Ok bad_gateway) in
  let m := ann_body "2025-01-10 10:00" "America/New_York" in
  (schedule_meeting_tool W (Request (Ok (JObj m)))).1
  = internal_error (Exc ValueError "Expecting value: line 1 column 1 (char 0)").
Proof.
  intros W m.
  apply (proj1 (proj1 (upstream_body_must_be_an_object W m bad_gateway) _ _
                  (ann_tool_posts (Ok bad_gateway)) eq_refl) _ eq_refl).
Defined.

Lemma app_report_decides_the_answer_witness :
  let W := sample_world (Ok created_without_data) in
  let m := ann_body "2025-01-10 10:00" "UTC" in
  let b : gmap string json := {[ "status" := JStr "success"; "data" := JNull ]} in
  b !! "status" = Some (JStr "success")
  /\ (schedule_meeting W (Request (Ok (JObj m)))).1
     = internal_error (Exc AttributeError "'NoneType' object has no attribute 'get'").
Proof.
  intros W m b.
  assert (Hs : b !! "status" = Some (JStr "success")) by (vm_compute; reflexivity).
  split; [exact Hs|].
  rewrite (proj1 (app_report_decides_the_answer W m _ _ created_without_data b
                    (ann_app_posts (Ok created_without_data)) eq_refl eq_refl Hs)).
  - vm_compute. reflexivity.
  - vm_compute. reflexivity.
Defined.

Lemma discovery_documents_match_the_handler_witness :
  let W := sample_world (Ok created) in
  let m : gmap string json :=
    list_to_map [("name", JStr "Ann"); ("email", JStr "ann@example.com");
                 ("time", JStr "2025-01-10 10:00")] in
  tool_schema mcp_root "parameters" = Ok mcp_parameters
  /\ advertised_default mcp_parameters "timezone" = Some (JStr "Europe/Amsterdam")
  /\ m !! "timezone" = None
  /\ schedule_meeting_tool W
       (Request (Ok (JObj (<["timezone" := JStr "Europe/Amsterdam"]> m))))
     = schedule_meeting_tool W (Request (Ok (JObj m))).
Proof.
  intros W m.
  assert (Hd : advertised_default mcp_parameters "timezone"
               = Some (JStr "Europe/Amsterdam")) by (vm_compute; reflexivity).
  assert (Hm : m !! "timezone" = None) by (vm_compute; reflexivity).
  split; [exact mcp_root_schema|]. split; [exact Hd|]. split; [exact Hm|].
  apply (proj1 (proj2 (discovery_documents_match_the_handler W m mcp_parameters
                         (or_introl mcp_root_schema))) _ _ Hd Hm).
Defined.

Lemma handlers_agree_on_utc_witness :
  let W := sample_world (Ok created) in
  let m := ann_body "2025-01-10 10:00" "UTC" in
  let parsed := mk_datetime 2025 1 10 10 0 0 None in
  m !! "timezone" = Some (JStr "UTC")
  /\ date_parse W (field m "time") = Ok parsed
  /\ representable (wall parsed)
  /\ (schedule_meeting_tool W (Request (Ok (JObj m)))).2
     = (schedule_meeting W (Request (Ok (JObj m)))).2.
Proof.
  intros W m parsed.
  assert (Hz : m !! "timezone" = Some (JStr "UTC")) by (vm_compute; reflexivity).
  assert (Hp : date_parse W (field m "time") = Ok parsed) by (vm_compute; reflexivity).
  assert (Hw : representable (wall parsed))
    by (vm_compute; split; [discriminate|reflexivity]).
  split; [exact Hz|]. split; [exact Hp|]. split; [exact Hw|].
  apply (handlers_agree_on_utc W m (JStr "UTC") parsed Hz eq_refl Hp eq_refl Hw).
Defined.
